(** * A model of [media-renamer.py]

    Shallow embedding of the media file renamer: the filename regular
    expression (a backtracking matcher in the style of Python's [re]),
    [parse_filename], [get_filename_format], [get_unique_filepath] and the
    batch loop [rename_files], with the filesystem, the standard streams and
    Python exceptions threaded through a small state-and-exception monad.

    Strings are modelled as ASCII strings: on ASCII input Python's [\d] is
    [0-9] and [\w] is [A-Za-z0-9_]. *)

From Stdlib Require Import String Ascii List ZArith Bool Lia.
From Stdlib Require Import DecimalString.
Import ListNotations.
Open Scope string_scope.
Local Set Warnings "-abstract-large-number".

(* ------------------------------------------------------------------ *)
(** ** Python exceptions and the outcome of a computation *)

Inductive exc :=
| ValueError (msg : string)
| IndexError (msg : string)
| EOFError
| FileNotFoundError (msg : string)
| Exception (msg : string).

(** [str(e)], as printed by [print(e, file=sys.stderr)]. *)
Definition exc_str (e : exc) : string :=
  match e with
  | ValueError m | IndexError m | FileNotFoundError m | Exception m => m
  | EOFError => ""
  end.

Inductive outcome (A : Type) :=
| Ret (a : A)
| Raise (e : exc).
Arguments Ret {A} a.
Arguments Raise {A} e.

Definition obind {A B} (o : outcome A) (k : A -> outcome B) : outcome B :=
  match o with
  | Ret a => k a
  | Raise e => Raise e
  end.

Notation "x <-? o ;; k" := (obind o (fun x => k))
  (at level 61, o at next level, right associativity).

(* ------------------------------------------------------------------ *)
(** ** Characters and string helpers *)

Definition is_digit (c : ascii) : bool :=
  let n := nat_of_ascii c in Nat.leb 48 n && Nat.leb n 57.

Definition is_word (c : ascii) : bool :=
  let n := nat_of_ascii c in
  is_digit c || (Nat.leb 65 n && Nat.leb n 90) || (Nat.leb 97 n && Nat.leb n 122)
  || Nat.eqb n 95.

(** [s[:k]] and [s[k:]]. *)
Fixpoint stake (k : nat) (s : string) : string :=
  match k, s with
  | O, _ => ""
  | S _, "" => ""
  | S k', String c r => String c (stake k' r)
  end.

Fixpoint sdrop (k : nat) (s : string) : string :=
  match k, s with
  | O, _ => s
  | S _, "" => ""
  | S k', String _ r => sdrop k' r
  end.

Fixpoint is_prefix (p s : string) : bool :=
  match p, s with
  | "", _ => true
  | String _ _, "" => false
  | String c p', String d s' => Ascii.eqb c d && is_prefix p' s'
  end.

(** Python's [needle in hay] on strings. *)
Fixpoint contains (needle hay : string) : bool :=
  is_prefix needle hay ||
  match hay with
  | "" => false
  | String _ r => contains needle r
  end.

(** [s.rfind(c)], [None] standing for [-1]. *)
Fixpoint rfind (c : ascii) (s : string) : option nat :=
  match s with
  | "" => None
  | String d r =>
      match rfind c r with
      | Some i => Some (S i)
      | None => if Ascii.eqb d c then Some 0 else None
      end
  end.

(** ASCII [str.lower()]. *)
Fixpoint lower (s : string) : string :=
  match s with
  | "" => ""
  | String c r =>
      let n := nat_of_ascii c in
      String (if Nat.leb 65 n && Nat.leb n 90 then ascii_of_nat (n + 32) else c)
             (lower r)
  end.

(* ------------------------------------------------------------------ *)
(** ** Integers: [int(s)], [str(i)] and the [d] format specification *)

Definition digit_value (c : ascii) : Z := Z.of_nat (nat_of_ascii c - 48).

Fixpoint digits_value_acc (acc : Z) (s : string) : Z :=
  match s with
  | "" => acc
  | String c r => digits_value_acc (acc * 10 + digit_value c) r
  end.

Fixpoint all_chars (f : ascii -> bool) (s : string) : bool :=
  match s with
  | "" => true
  | String c r => f c && all_chars f r
  end.

Definition all_digits (s : string) : bool := all_chars is_digit s.

(** [int(s)] on the strings this program passes to it: the captures of
    [\d] and [\w] groups (no sign, no blanks).  On such a string Python
    accepts exactly the non-empty runs of decimal digits: an underscore is
    only accepted between two digits, which a capture of [\d] never holds
    and a two-character [\w] capture never satisfies. *)
Definition py_int (s : string) : outcome Z :=
  if negb (String.eqb s "") && all_digits s then Ret (digits_value_acc 0 s)
  else Raise (ValueError ("invalid literal for int() with base 10: '" ++ s ++ "'")).

(** Decimal digits of a natural number. *)
Definition dec_N (n : N) : string := NilZero.string_of_uint (N.to_uint n).

(** [str(i)] / [f"{i}"]. *)
Definition py_str_int (z : Z) : string :=
  if Z.ltb z 0 then "-" ++ dec_N (Z.to_N (Z.abs z)) else dec_N (Z.to_N z).

Fixpoint zeros (n : nat) : string :=
  match n with
  | O => ""
  | S n' => String "0" (zeros n')
  end.

(** [f"{z:0<w>d}"]: sign-aware zero padding to width [w]. *)
Definition py_format_d (w : nat) (z : Z) : string :=
  let body := dec_N (Z.to_N (Z.abs z)) in
  if Z.ltb z 0 then "-" ++ zeros (w - 1 - String.length body) ++ body
  else zeros (w - String.length body) ++ body.

(* ------------------------------------------------------------------ *)
(** ** Regular expressions: the fragment used by [parse_filename]

    A pattern is an alternation of sequences.  Each element of a sequence
    is a piece (one character of a class, exactly [n] of them, or a greedy
    [+] repetition), bare or inside a capturing group. *)

Inductive cls := CLit (c : ascii) | CDigit | CWord.

Definition cls_match (k : cls) (c : ascii) : bool :=
  match k with
  | CLit d => Ascii.eqb c d
  | CDigit => is_digit c
  | CWord => is_word c
  end.

Inductive piece := One (k : cls) | Exactly (k : cls) (n : nat) | Plus (k : cls).

Inductive node := Bare (p : piece) | Group (p : piece).

Definition node_piece (n : node) : piece :=
  match n with Bare p | Group p => p end.

(** Length of the longest prefix of [s] in class [k]. *)
Fixpoint run_length (k : cls) (s : string) : nat :=
  match s with
  | "" => O
  | String c r => if cls_match k c then S (run_length k r) else O
  end.

(** The lengths a piece may consume at the start of [s], in the order the
    backtracking engine tries them: a greedy [+] tries the longest run
    first and gives characters back one at a time. *)
Definition candidates (p : piece) (s : string) : list nat :=
  match p with
  | One k => if Nat.leb 1 (run_length k s) then [1] else []
  | Exactly k n => if Nat.leb n (run_length k s) then [n] else []
  | Plus k => rev (seq 1 (run_length k s))
  end.

(** The first length in [ks] for which [f] succeeds. *)
Fixpoint first_success {A} (f : nat -> option A) (ks : list nat) : option A :=
  match ks with
  | [] => None
  | k :: ks' =>
      match f k with
      | Some r => Some r
      | None => first_success f ks'
      end
  end.

(** Backtracking match of a sequence at the start of [s]; on success, the
    captures of its groups, in order.  Like [re.match], the sequence need
    not consume the whole string. *)
Fixpoint match_nodes (ns : list node) (s : string) : option (list string) :=
  match ns with
  | [] => Some []
  | n :: ns' =>
      first_success
        (fun k =>
           match match_nodes ns' (sdrop k s) with
           | Some caps =>
               Some (match n with
                     | Group _ => stake k s :: caps
                     | Bare _ => caps
                     end)
           | None => None
           end)
        (candidates (node_piece n) s)
  end.

Fixpoint ngroups (ns : list node) : nat :=
  match ns with
  | [] => O
  | Group _ :: ns' => S (ngroups ns')
  | Bare _ :: ns' => ngroups ns'
  end.

(** [re.match(pattern, s).groups()] for a top-level alternation: the first
    alternative that matches wins; the groups of the other alternatives are
    [None]. *)
Fixpoint re_match (alts : list (list node)) (s : string)
  : option (list (option string)) :=
  match alts with
  | [] => None
  | a :: alts' =>
      match match_nodes a s with
      | Some caps =>
          Some (app (map Some caps)
                    (concat (map (fun b => repeat None (ngroups b)) alts')))
      | None =>
          option_map (fun gs => app (repeat None (ngroups a)) gs) (re_match alts' s)
      end
  end.

Fixpoint lits (s : string) : list node :=
  match s with
  | "" => []
  | String c r => Bare (One (CLit c)) :: lits r
  end.

Definition gd (n : nat) : node := Group (Exactly CDigit n).
Definition gdplus : node := Group (Plus CDigit).
Definition gw (n : nat) : node := Group (Exactly CWord n).
Definition gwplus : node := Group (Plus CWord).
Definition lit (c : ascii) : node := Bare (One (CLit c)).

(** The nine alternatives of the pattern in [parse_filename], in order. *)
Definition alt1 : list node := (* (\d{4})-(\d{2})-(\d{2}) (\d{2})\.(\d{2})\.(\d{2})\.(\w+) *)
  [gd 4; lit "-"; gd 2; lit "-"; gd 2; lit " "; gd 2; lit "."; gd 2; lit "."; gd 2;
   lit "."; gwplus].
Definition alt2 : list node := (* IMG_(\d{4})(\d{2})(\d{2})_(\d{2})(\d{2})(\d{2})_(\d+)\.(\w+) *)
  app (lits "IMG_")
    [gd 4; gd 2; gd 2; lit "_"; gd 2; gd 2; gd 2; lit "_"; gdplus; lit "."; gwplus].
Definition alt3 : list node := (* PXL_(\d{4})(\d{2})(\d{2})_(\d{2})(\d{2})(\d{2})(\d+)\.(\w+) *)
  app (lits "PXL_")
    [gd 4; gd 2; gd 2; lit "_"; gd 2; gd 2; gd 2; gdplus; lit "."; gwplus].
Definition alt4 : list node :=
  (* Screenshot from (\d{4})-(\d{2})-(\d{2}) (\d{2})-(\d{2})-(\d{2})\.(\w+) *)
  app (lits "Screenshot from ")
    [gd 4; lit "-"; gd 2; lit "-"; gd 2; lit " "; gd 2; lit "-"; gd 2; lit "-"; gd 2;
     lit "."; gwplus].
Definition alt5 : list node := (* VID_(\d{4})(\d{2})(\d{2})_(\w{2})(\d{4})\.(\w+) *)
  app (lits "VID_") [gd 4; gd 2; gd 2; lit "_"; gw 2; gd 4; lit "."; gwplus].
Definition alt6 : list node := (* PXL_(\d{4})(\d{2})(\d{2})_(\d{2})(\d{2})(\d{2})(\d{3})\.(\w+) *)
  app (lits "PXL_")
    [gd 4; gd 2; gd 2; lit "_"; gd 2; gd 2; gd 2; gd 3; lit "."; gwplus].
Definition alt7 : list node :=
  (* IMG_(\d{4})-(\d{2})-(\d{2})-(\d{2})-(\d{2})-(\d{2})-(\d{3})\.(\w+) *)
  app (lits "IMG_")
    [gd 4; lit "-"; gd 2; lit "-"; gd 2; lit "-"; gd 2; lit "-"; gd 2; lit "-"; gd 2;
     lit "-"; gd 3; lit "."; gwplus].
Definition alt8 : list node :=
  (* IMG_(\d{4})-(\d{2})-(\d{2})-(\d{2})-(\d{2})-(\d{2})-(\d{3})-(\d+)\.(\w+) *)
  app (lits "IMG_")
    [gd 4; lit "-"; gd 2; lit "-"; gd 2; lit "-"; gd 2; lit "-"; gd 2; lit "-"; gd 2;
     lit "-"; gd 3; lit "-"; gdplus; lit "."; gwplus].
Definition alt9 : list node := (* (\d{4})-(\d{2})-(\d{2}) (\d{2})\.(\d{2})\.(\d{2})_(\d+)\.(\w+) *)
  [gd 4; lit "-"; gd 2; lit "-"; gd 2; lit " "; gd 2; lit "."; gd 2; lit "."; gd 2;
   lit "_"; gdplus; lit "."; gwplus].

Definition pattern : list (list node) :=
  [alt1; alt2; alt3; alt4; alt5; alt6; alt7; alt8; alt9].

(* ------------------------------------------------------------------ *)
(** ** Paths ([pathlib.PurePosixPath])

    A path is the list of its components; an absolute path starts with the
    component ["/"]. *)

Definition Path := list string.

Definition path_eqb (p q : Path) : bool :=
  if list_eq_dec string_dec p q then true else false.

(** Split on ['/'], keeping empty pieces. *)
Fixpoint split_slash (s : string) : list string :=
  match s with
  | "" => [""]
  | String c r =>
      let parts := split_slash r in
      if Ascii.eqb c "/" then "" :: parts
      else match parts with
           | p :: ps => String c p :: ps
           | [] => [String c ""]
           end
  end.

(** pathlib drops empty and ["."] components. *)
Definition components (s : string) : list string :=
  filter (fun x => negb (String.eqb x "") && negb (String.eqb x ".")) (split_slash s).

(** [p / s]. *)
Definition path_div (p : Path) (s : string) : Path :=
  match s with
  | String "/" _ => "/" :: components s
  | _ => app p (components s)
  end.

(** [p.name]. *)
Definition path_name (p : Path) : string :=
  match rev p with
  | [] => ""
  | "/" :: [] => ""
  | n :: _ => n
  end.

(** [p.suffix] and [p.stem], from the last ['.'] of the name. *)
Definition name_suffix (name : string) : string :=
  match rfind "." name with
  | Some i => if Nat.ltb 0 i && Nat.ltb (S i) (String.length name) then sdrop i name else ""
  | None => ""
  end.

Definition name_stem (name : string) : string :=
  match rfind "." name with
  | Some i => if Nat.ltb 0 i && Nat.ltb (S i) (String.length name) then stake i name else name
  | None => name
  end.

Definition path_suffix (p : Path) : string := name_suffix (path_name p).
Definition path_stem (p : Path) : string := name_stem (path_name p).

(** [p.with_name(n)]: [ValueError] when [p] has no name or [n] is not a
    single non-empty component. *)
Definition with_name (p : Path) (n : string) : outcome Path :=
  if String.eqb (path_name p) "" then Raise (ValueError "has an empty name")
  else if String.eqb n "" || contains "/" n || String.eqb n "." then
    Raise (ValueError ("Invalid name '" ++ n ++ "'"))
  else Ret (app (removelast p) [n]).

Fixpoint join_slash (ps : list string) : string :=
  match ps with
  | [] => ""
  | [x] => x
  | x :: ps' => x ++ "/" ++ join_slash ps'
  end.

(** [str(p)]. *)
Definition path_str (p : Path) : string :=
  match p with
  | [] => "."
  | "/" :: ps => "/" ++ join_slash ps
  | _ => join_slash p
  end.

(* ------------------------------------------------------------------ *)
(** ** [FileMetaData] and [parse_filename] *)

Record FileMetaData := mkFileMetaData {
  year : Z; month : Z; day : Z; hour : Z; minute : Z; second : Z;
  extension : string
}.

Fixpoint filter_some {A} (l : list (option A)) : list A :=
  match l with
  | [] => []
  | Some x :: l' => x :: filter_some l'
  | None :: l' => filter_some l'
  end.

Definition list_index (l : list string) (i : nat) : outcome string :=
  match nth_error l i with
  | Some x => Ret x
  | None => Raise (IndexError "list index out of range")
  end.

(** [a, b, c = map(int, l)]. *)
Definition unpack_int3 (l : list string) : outcome (Z * Z * Z) :=
  match l with
  | [a; b; c] => x <-? py_int a ;; y <-? py_int b ;; z <-? py_int c ;; Ret (x, y, z)
  | _ => Raise (ValueError "wrong number of values to unpack (expected 3)")
  end.

(** [list[i:j]]. *)
Definition slice {A} (i j : nat) (l : list A) : list A := firstn (j - i) (skipn i l).

Definition parse_filename (filename : Path) : outcome (option FileMetaData) :=
  let name := path_name filename in
  match re_match pattern name with
  | None => Ret None
  | Some all_groups =>
      let groups := filter_some all_groups in
      ymd <-? unpack_int3 (slice 0 3 groups) ;;
      let '(y, mo, d) := ymd in
      let ext := sdrop 1 (path_suffix filename) in
      hms <-?
        (if contains "WA" name then
           g4 <-? list_index groups 4 ;;
           h <-? py_int g4 ;;
           Ret (h, 0%Z, 0%Z)
         else if Nat.eqb (List.length groups) 6 && contains "VID" name then
           g3 <-? list_index groups 3 ;;
           h <-? py_int g3 ;;
           g4 <-? list_index groups 4 ;;
           mi <-? py_int (stake 2 g4) ;;
           s <-? py_int (sdrop 2 g4) ;;
           Ret (h, mi, s)
         else unpack_int3 (slice 3 6 groups)) ;;
      let '(h, mi, s) := hms in
      Ret (Some (mkFileMetaData y mo d h mi s ext))
  end.

(* ------------------------------------------------------------------ *)
(** ** [get_filename_format] *)

Definition format_name (metadata : FileMetaData) : string :=
  py_format_d 4 (year metadata) ++ "-" ++ py_format_d 2 (month metadata) ++ "-"
  ++ py_format_d 2 (day metadata) ++ "_" ++ py_format_d 2 (hour metadata) ++ "-"
  ++ py_format_d 2 (minute metadata) ++ "-" ++ py_format_d 2 (second metadata)
  ++ "." ++ extension metadata.

Definition get_filename_format (directory : Path) (metadata : FileMetaData) : Path :=
  path_div directory (format_name metadata).

(* ------------------------------------------------------------------ *)
(** ** The world: filesystem, standard streams, standard input *)

Inductive kind := RegularFile | Directory.

Inductive stream := Stdout | Stderr.

Record World := mkWorld {
  fs : list (Path * kind);
  out : list (stream * string);
  stdin : list string
}.

(** Computations that read and write the world and may raise. *)
Definition M (A : Type) : Type := World -> outcome A * World.

Definition ret {A} (a : A) : M A := fun w => (Ret a, w).

Definition bind {A B} (m : M A) (k : A -> M B) : M B :=
  fun w =>
    match m w with
    | (Ret a, w') => k a w'
    | (Raise e, w') => (Raise e, w')
    end.

Notation "x <- m ;; k" := (bind m (fun x => k))
  (at level 61, m at next level, right associativity).
Notation "m ;;; k" := (bind m (fun _ => k))
  (at level 61, right associativity).

Definition raise {A} (e : exc) : M A := fun w => (Raise e, w).

Definition lift {A} (o : outcome A) : M A := fun w => (o, w).

Definition emit (st : stream) (line : string) (w : World) : World :=
  mkWorld (fs w) (app (out w) [(st, line)]) (stdin w).

(** [print(s)]. *)
Definition print (s : string) : M unit := fun w => (Ret tt, emit Stdout s w).

(** [p.exists()]. *)
Definition path_exists (p : Path) : M bool :=
  fun w => (Ret (existsb (fun e => path_eqb (fst e) p) (fs w)), w).

(** [p.is_file()]. *)
Definition is_file (p : Path) : M bool :=
  fun w =>
    (Ret (existsb (fun e => path_eqb (fst e) p &&
                            match snd e with RegularFile => true | Directory => false end)
                  (fs w)), w).

Definition is_child (d p : Path) : bool :=
  match rev p with
  | [] => false
  | _ :: rparent => path_eqb (rev rparent) d
  end.

(** [d.iterdir()]: the entries of [d], listed once when the iteration
    starts, in the order the filesystem lists them. *)
Definition iterdir (d : Path) : M (list Path) :=
  fun w => (Ret (map fst (filter (fun e => is_child d (fst e)) (fs w))), w).

(** [input(prompt)]: the prompt goes to standard output, a line is read from
    standard input, [EOFError] at its end. *)
Definition input (prompt : string) : M string :=
  fun w =>
    match stdin w with
    | [] => (Raise EOFError, emit Stdout prompt w)
    | l :: ls => (Ret l, mkWorld (fs w) (app (out w) [(Stdout, prompt)]) ls)
    end.

(** [src.rename(dst)] ([os.rename]): the entry moves to [dst], replacing
    whatever was there; [FileNotFoundError] when [src] is missing. *)
Definition rename (src dst : Path) : M unit :=
  fun w =>
    match find (fun e => path_eqb (fst e) src) (fs w) with
    | None => (Raise (FileNotFoundError ("No such file or directory: '" ++ path_str src ++ "'")), w)
    | Some (_, k) =>
        (Ret tt,
         mkWorld (app (filter (fun e => negb (path_eqb (fst e) src) && negb (path_eqb (fst e) dst))
                              (fs w)) [(dst, k)])
                 (out w) (stdin w))
    end.

(* ------------------------------------------------------------------ *)
(** ** [get_unique_filepath] *)

Definition unique_message : string := "Could not find a unique filename".

(** The body of [for i in range(1, 100)], over the remaining indices. *)
Fixpoint probe (base_filepath : Path) (indices : list Z) : M Path :=
  match indices with
  | [] => raise (Exception unique_message)
  | i :: rest =>
      new_filepath <- lift (with_name base_filepath
                              (path_stem base_filepath ++ "_" ++ py_str_int i
                               ++ path_suffix base_filepath)) ;;
      e <- path_exists new_filepath ;;
      if negb e then ret new_filepath else probe base_filepath rest
  end.

(** [range(1, 100)]. *)
Definition range_1_100 : list Z := map Z.of_nat (seq 1 99).

Definition get_unique_filepath (directory : Path) (metadata : FileMetaData) : M Path :=
  let base_filepath := get_filename_format directory metadata in
  probe base_filepath range_1_100.

(* ------------------------------------------------------------------ *)
(** ** [rename_files] *)

Record Args := mkArgs { verbose : bool; do_rename : bool; yes : bool }.

Definition when (b : bool) (m : M unit) : M unit := if b then m else ret tt.

(** One iteration of the [for] loop. *)
Definition rename_one (directory : Path) (args : Args) (filepath : Path) : M unit :=
  f <- is_file filepath ;;
  if negb f then ret tt else
  metadata <- lift (parse_filename filepath) ;;
  match metadata with
  | None => ret tt
  | Some metadata =>
      new_filepath <- get_unique_filepath directory metadata ;;
      when (verbose args)
        (print ("renaming: " ++ path_str filepath ++ " to " ++ path_str new_filepath ++ ".")) ;;;
      go <- (if do_rename args then
               if yes args then ret true
               else a <- input ("Rename? " ++ path_str filepath ++ " -> "
                                ++ path_str new_filepath ++ " (y/n): ") ;;
                    ret (String.eqb (lower a) "y")
             else ret false) ;;
      when go
        (rename filepath new_filepath ;;;
         when (verbose args)
           (print ("Renamed: " ++ path_str filepath ++ " -> " ++ path_str new_filepath)))
  end.

Fixpoint rename_loop (directory : Path) (args : Args) (entries : list Path) : M unit :=
  match entries with
  | [] => ret tt
  | filepath :: rest => rename_one directory args filepath ;;; rename_loop directory args rest
  end.

(** The [try] covers the whole loop: any exception ends the run with
    status 1 after printing it on standard error. *)
Definition rename_files (directory : Path) (args : Args) : M Z :=
  fun w =>
    match (entries <- iterdir directory ;; rename_loop directory args entries) w with
    | (Ret _, w') => (Ret 0%Z, w')
    | (Raise e, w') => (Ret 1%Z, emit Stderr (exc_str e) w')
    end.

(* ------------------------------------------------------------------ *)
(** ** [run_exiftool] and [main] *)

(** [print(s, file=sys.stderr)]. *)
Definition eprint (s : string) : M unit := fun w => (Ret tt, emit Stderr s w).

(** [p.is_dir()]. *)
Definition is_dir (p : Path) : M bool :=
  fun w =>
    (Ret (existsb (fun e => path_eqb (fst e) p &&
                            match snd e with Directory => true | RegularFile => false end)
                  (fs w)), w).

(** [Path(s)]. *)
Definition path_of_string (s : string) : Path := path_div [] s.

(** [shutil.which("exiftool")] is the argument [exiftool_path]; the
    external process run by [subprocess.call] is the argument [call], which
    may act on the world in any way and returns the exit status. *)
Definition run_exiftool (exiftool_path : option string) (call : list string -> M Z)
    (directory : Path) : M Z :=
  match exiftool_path with
  | None | Some EmptyString => eprint "exiftool not found." ;;; ret 1%Z
  | Some exiftool_path =>
      rc <- call [exiftool_path; "-filename<DateTimeOriginal"; "-d"; "%Y-%m-%d_%H-%M-%S.%%e";
                  "-r"; path_name directory; "."] ;;
      if negb (Z.eqb rc 0) then eprint "exiftool failed." ;;; ret 1%Z
      else ret 0%Z
  end.

(** The namespace returned by [parser.parse_args()]. *)
Record CliArgs := mkCliArgs {
  cli_directory : string; cli_rename : bool; cli_yes : bool; cli_verbose : bool;
  cli_exiftool : bool
}.

(** [main], after argument parsing; the return value of [run_exiftool] is
    discarded. *)
Definition main (exiftool_path : option string) (call : list string -> M Z)
    (args : CliArgs) : M Z :=
  (if cli_exiftool args
   then run_exiftool exiftool_path call (path_of_string (cli_directory args)) ;;; ret tt
   else ret tt) ;;;
  let directory := path_of_string (cli_directory args) in
  d <- is_dir directory ;;
  if negb d then eprint (path_str directory ++ " is not a directory.") ;;; ret 1%Z
  else rename_files directory (mkArgs (cli_verbose args) (cli_rename args) (cli_yes args)).

(* ------------------------------------------------------------------ *)
(** ** [py_debugger.my_debug_function]

    Python values as the decorator sees them: the arguments, the result of
    the decorated function and the data loaded from the log.  Dictionary
    keys are strings and numbers are integers; any other object is kept as
    its type name and its [str()]. *)

Inductive pyval :=
| PNone
| PBool (b : bool)
| PInt (z : Z)
| PStr (s : string)
| PList (l : list pyval)
| PTuple (l : list pyval)
| PDict (kvs : list (string * pyval))
| PObj (type_name : string) (s : string).

(** JSON documents. *)
Inductive json :=
| JNull
| JBool (b : bool)
| JInt (z : Z)
| JStr (s : string)
| JArr (l : list json)
| JObj (kvs : list (string * json)).

(** [json.dump(v, f, indent=4, default=str)]: tuples become arrays, other
    objects their [str()]. *)
Fixpoint to_json (v : pyval) : json :=
  match v with
  | PNone => JNull
  | PBool b => JBool b
  | PInt z => JInt z
  | PStr s => JStr s
  | PList l => JArr (map to_json l)
  | PTuple l => JArr (map to_json l)
  | PDict kvs => JObj (map (fun '(k, x) => (k, to_json x)) kvs)
  | PObj _ s => JStr s
  end.

(** [json.load(f)] on a well-formed document. *)
Fixpoint from_json (j : json) : pyval :=
  match j with
  | JNull => PNone
  | JBool b => PBool b
  | JInt z => PInt z
  | JStr s => PStr s
  | JArr l => PList (map from_json l)
  | JObj kvs => PDict (map (fun '(k, x) => (k, from_json x)) kvs)
  end.

Definition py_type_name (v : pyval) : string :=
  match v with
  | PNone => "NoneType"
  | PBool _ => "bool"
  | PInt _ => "int"
  | PStr _ => "str"
  | PList _ => "list"
  | PTuple _ => "tuple"
  | PDict _ => "dict"
  | PObj t _ => t
  end.

(** Python exceptions: an instance of a subclass of [Exception], or a
    [BaseException] outside it ([KeyboardInterrupt], [SystemExit], ...);
    each with its class name and its [str()]. *)
Inductive pyexc :=
| ExceptionE (cls : string) (msg : string)
| BaseExceptionE (cls : string) (msg : string).

Inductive pyresult (A : Type) :=
| Returned (a : A)
| Raised (e : pyexc).
Arguments Returned {A} a.
Arguments Raised {A} e.

(** The file [/tmp/debug.json]: missing, empty, holding a JSON document,
    or non-empty and not JSON ([json.load] raises [JSONDecodeError] with
    the message [err]). *)
Inductive LogFile :=
| NoLog
| EmptyLog
| JsonLog (j : json)
| BadLog (err : string).

(** [os.path.exists(p)] and [os.path.getsize(p) > 0]. *)
Definition log_exists (s : LogFile) : bool :=
  match s with NoLog => false | _ => true end.

Definition log_nonempty (s : LogFile) : bool :=
  match s with NoLog | EmptyLog => false | _ => true end.

(** [json.load(open(p, "r"))]. *)
Definition json_load (s : LogFile) : pyresult pyval :=
  match s with
  | NoLog => Raised (ExceptionE "FileNotFoundError" "No such file or directory: '/tmp/debug.json'")
  | EmptyLog => Raised (ExceptionE "JSONDecodeError" "Expecting value: line 1 column 1 (char 0)")
  | JsonLog j => Returned (from_json j)
  | BadLog err => Raised (ExceptionE "JSONDecodeError" err)
  end.

(** [v.append(x)]. *)
Definition py_append (v x : pyval) : pyresult pyval :=
  match v with
  | PList l => Returned (PList (app l [x]))
  | _ => Raised (ExceptionE "AttributeError"
                  ("'" ++ py_type_name v ++ "' object has no attribute 'append'"))
  end.

(** [d[k] = v] on a dictionary: an existing key keeps its position. *)
Fixpoint dict_set (kvs : list (string * pyval)) (k : string) (v : pyval)
  : list (string * pyval) :=
  match kvs with
  | [] => [(k, v)]
  | (k', v') :: rest =>
      if String.eqb k k' then (k, v) :: rest else (k', v') :: dict_set rest k v
  end.

(** A frame of [traceback.extract_stack()]. *)
Record Frame := mkFrame { frame_name : string; frame_filename : string; frame_lineno : Z }.

(** What the wrapper reads from its environment at each call:
    [datetime.now().strftime(...)], [func.__name__], [inspect.getfile(func)],
    [inspect.getsourcelines(func)[1]], [str(inspect.signature(func))] and
    [traceback.extract_stack()]. *)
Record CallEnv := mkCallEnv {
  timestamp : string;
  func_name : string;
  func_file : string;
  source_line : Z;
  func_signature : string;
  extract_stack : list Frame
}.

Definition frame_entry (frame : Frame) : pyval :=
  PDict [("function", PStr (frame_name frame));
         ("path", PStr (frame_filename frame ++ ":" ++ py_str_int (frame_lineno frame)))].

(** [log_entry] before the call; the loop over [reversed(full_stack)]
    appends the frames in reverse order. *)
Definition initial_log_entry (env : CallEnv) (args : list pyval)
    (kwargs : list (string * pyval)) : list (string * pyval) :=
  let full_stack := removelast (extract_stack env) in
  [("timestamp", PStr (timestamp env));
   ("function", PStr (func_name env));
   ("path", PStr (func_file env ++ ":" ++ py_str_int (source_line env + 1)));
   ("signature", PStr (func_signature env));
   ("args", PTuple args);
   ("kwargs", PDict kwargs);
   ("call_stack", PList (map frame_entry (rev full_stack)));
   ("result", PNone);
   ("error", PNone)].

(** The [finally] block: load the log when the file exists and is not
    empty, append the entry, write the list back.  An exception raised here
    is returned, with the file as it was. *)
Definition finally_block (log_entry : pyval) (s : LogFile) : option pyexc * LogFile :=
  let logs := if log_exists s && log_nonempty s then json_load s else Returned (PList []) in
  match logs with
  | Raised e => (Some e, s)
  | Returned logs =>
      match py_append logs log_entry with
      | Raised e => (Some e, s)
      | Returned logs' => (None, JsonLog (to_json logs'))
      end
  end.

(** A call of [my_debug_function(func)] on [args] and [kwargs].  The decorated function
    runs on the log file too: it may itself call decorated functions. *)
Definition my_debug_function
    (func : list pyval -> list (string * pyval) -> LogFile -> pyresult pyval * LogFile)
    (env : CallEnv) (args : list pyval) (kwargs : list (string * pyval)) (s : LogFile)
  : pyresult pyval * LogFile :=
  let log_entry := initial_log_entry env args kwargs in
  let '(r, s1) := func args kwargs s in
  let '(log_entry, pending) :=
    match r with
    | Returned result => (dict_set log_entry "result" result, Returned result)
    | Raised (ExceptionE cls msg) => (dict_set log_entry "error" (PStr msg), r)
    | Raised (BaseExceptionE _ _) => (log_entry, r)
    end in
  let '(finally_exc, s2) := finally_block (PDict log_entry) s1 in
  match finally_exc with
  | Some e => (Raised e, s2)
  | None => (pending, s2)
  end.

(** The entries already in the log, when it can be appended to. *)
Definition prior_entries (s : LogFile) : option (list json) :=
  match s with
  | NoLog | EmptyLog => Some []
  | JsonLog (JArr js) => Some js
  | _ => None
  end.

(* ------------------------------------------------------------------ *)
(** ** Definitions following the specification's words *)

(** The text after the last ['.'] of [s], when [s] has one. *)
Fixpoint after_last_dot (s : string) : option string :=
  match s with
  | "" => None
  | String c r =>
      match after_last_dot r with
      | Some t => Some t
      | None => if Ascii.eqb c "." then Some r else None
      end
  end.

(** [YYYY-MM-DD_HH-MM-SS], the canonical name without its extension. *)
Definition canonical_stem (metadata : FileMetaData) : string :=
  py_format_d 4 (year metadata) ++ "-" ++ py_format_d 2 (month metadata) ++ "-"
  ++ py_format_d 2 (day metadata) ++ "_" ++ py_format_d 2 (hour metadata) ++ "-"
  ++ py_format_d 2 (minute metadata) ++ "-" ++ py_format_d 2 (second metadata).

(** The suffixed variant [YYYY-MM-DD_HH-MM-SS_<i>.<ext>] in [directory]. *)
Definition spec_variant (directory : Path) (metadata : FileMetaData) (i : Z) : Path :=
  path_div directory
    (canonical_stem metadata ++ "_" ++ py_str_int i ++ "." ++ extension metadata).

(** A file extension: non-empty, with no ['.'] and no ['/']. *)
Definition ext_ok (e : string) : bool :=
  negb (String.eqb e "") && negb (contains "." e) && negb (contains "/" e).

(** The field ranges of a NormalizedTimestamp; the extension is a file
    extension, so it holds no ['/']. *)
Definition in_domain (t : FileMetaData) : Prop :=
  (1 <= year t <= 9999)%Z /\ (1 <= month t <= 12)%Z /\ (1 <= day t <= 31)%Z /\
  (0 <= hour t <= 23)%Z /\ (0 <= minute t <= 59)%Z /\ (0 <= second t <= 59)%Z /\
  contains "/" (extension t) = false.

Definition in_world (w : World) (p : Path) : bool :=
  existsb (fun e => path_eqb (fst e) p) (fs w).

(* ------------------------------------------------------------------ *)
(** ** Concrete inputs *)

Definition empty_world : World := mkWorld [] [] [].

Definition scenario_a : FileMetaData := mkFileMetaData 2021 1 1 1 1 1 "jpg".

Definition batch_dir : Path := ["d"].
Definition batch_first : Path := ["d"; "2021-01-01 01.01.01.jpg"].
Definition batch_second : Path := ["d"; "IMG_20220202_020202_1.jpg"].

(** [batch_first] collides with the 99 names [_1] to [_99] already in the
    directory; [batch_second] has no collision. *)
Definition batch_world : World :=
  mkWorld
    (app [(batch_first, RegularFile); (batch_second, RegularFile)]
         (map (fun i => (["d"; "2021-01-01_01-01-01_" ++ py_str_int i ++ ".jpg"], RegularFile))
              range_1_100))
    [] [].

Definition batch_args : Args := mkArgs false true true.

(** The canonical name of [scenario_a] in [batch_dir] together with its
    variants [_1] to [_n]. *)
Definition occupied_world (n : nat) : World :=
  mkWorld
    ((get_filename_format batch_dir scenario_a, RegularFile)
     :: map (fun i => (spec_variant batch_dir scenario_a (Z.of_nat i), RegularFile)) (seq 1 n))
    [] [].

(** A directory [d] holding a photo and a text file; the user answers
    ["yes"] to the first prompt. *)
Definition demo_world : World :=
  mkWorld [(["d"], Directory); (batch_first, RegularFile); (["d"; "notes.txt"], RegularFile)]
          [] ["yes"].

(** Renaming with a confirmation prompt. *)
Definition confirm_args : Args := mkArgs false true false.

(** A directory with nothing the pattern accepts. *)
Definition unmatched_world : World :=
  mkWorld [(["d"], Directory); (["d"; "notes.txt"], RegularFile);
           (["d"; "IMG_0001"], Directory)] [] [].

(** [media-renamer.py d -e]. *)
Definition demo_cli : CliArgs := mkCliArgs "d" false false false true.

Definition demo_env : CallEnv :=
  mkCallEnv "12:00:00 16-10-2026" "f" "/app/f.py" 9 "(x)"
    [mkFrame "<module>" "/app/main.py" 3; mkFrame "wrapper" "/app/py_debugger.py" 29].

(** A decorated function returning 42, and one raising [ValueError]. *)
Definition demo_func (args : list pyval) (kwargs : list (string * pyval)) (s : LogFile)
  : pyresult pyval * LogFile := (Returned (PInt 42), s).

Definition failing_func (args : list pyval) (kwargs : list (string * pyval)) (s : LogFile)
  : pyresult pyval * LogFile := (Raised (ExceptionE "ValueError" "bad input"), s).

(** ** Auxiliary predicates used by the proofs *)

(** The characters of a formatted number: digits and ['-']. *)
Definition num_char (c : ascii) : bool := is_digit c || Ascii.eqb c "-".

(** The characters of the canonical stem: digits, ['-'] and ['_']. *)
Definition stem_char (c : ascii) : bool := num_char c || Ascii.eqb c "_".

Definition format_check (w : nat) (n : nat) : bool :=
  let z := Z.of_nat n in
  Nat.eqb (String.length (py_format_d w z)) w && Z.eqb (digits_value_acc 0 (py_format_d w z)) z.

Definition piece_cls (p : piece) : cls :=
  match p with One k | Exactly k _ | Plus k => k end.

Fixpoint group_pieces (ns : list node) : list piece :=
  match ns with
  | [] => []
  | Group p :: ns' => p :: group_pieces ns'
  | Bare _ :: ns' => group_pieces ns'
  end.

Definition piece_len_ok (p : piece) (l : nat) : Prop :=
  match p with
  | One _ => l = 1
  | Exactly _ n => l = n
  | Plus _ => 1 <= l
  end.

(** A capture of piece [p]: characters of its class, in a number it allows. *)
Definition cap_ok (p : piece) (c : string) : Prop :=
  all_chars (cls_match (piece_cls p)) c = true /\ piece_len_ok p (String.length c).

Definition fixed_width (p : piece) : option nat :=
  match p with
  | One _ => Some 1
  | Exactly _ m => Some m
  | Plus _ => None
  end.

(* ================================================================== *)
(** * Properties *)

(** ** Concrete runs *)

(** C1 (code_bug): with an empty directory, [get_unique_filepath] for
    (2021,1,1,1,1,1,"jpg") returns [2021-01-01_01-01-01_1.jpg]: the loop
    starts at [_1] and never offers the unsuffixed canonical path. *)
Theorem plan_empty_dir_suffixed :
  fst (get_unique_filepath ["d"] scenario_a empty_world)
  = Ret ["d"; "2021-01-01_01-01-01_1.jpg"].
Proof. vm_compute. reflexivity. Qed.

(** C2 (counterexample): [VID_20210101_WA1234.mp4] is parsed with hour
    1234, the value of the four-digit ordinal, not 0. *)
Lemma vid_wa_hour_is_ordinal :
  parse_filename ["d"; "VID_20210101_WA1234.mp4"]
  = Ret (Some (mkFileMetaData 2021 1 1 1234 0 0 "mp4")).
Proof. vm_compute. reflexivity. Qed.

(** C3 (code_bug): [VID_20210101_AB1234.mp4] matches the VID grammar and
    [parse_filename] raises [ValueError] from [int("AB")]. *)
Theorem parse_vid_letter_tag_raises :
  parse_filename ["d"; "VID_20210101_AB1234.mp4"]
  = Raise (ValueError "invalid literal for int() with base 10: 'AB'").
Proof. vm_compute. reflexivity. Qed.

(** C4 (code_bug): [PXL_20210101_010203123.WAV] matches grammar 3, but
    because its name contains ["WA"] it is parsed with hour 2 (the minute
    digits), minute 0 and second 0 instead of 01:02:03. *)
Theorem parse_pxl_wav_wrong_time :
  parse_filename ["d"; "PXL_20210101_010203123.WAV"]
  = Ret (Some (mkFileMetaData 2021 1 1 2 0 0 "WAV")).
Proof. vm_compute. reflexivity. Qed.

(** C5 (counterexample): when [get_unique_filepath] raises for the first
    entry, [rename_files] returns 1 with nothing renamed, although the
    second entry would be renamed if it were processed. *)
Lemma batch_stops_at_exhaustion :
  let '(r, w') := rename_files batch_dir batch_args batch_world in
  r = Ret 1%Z /\ fs w' = fs batch_world /\
  out w' = [(Stderr, unique_message)] /\
  fst (rename_one batch_dir batch_args batch_second w') = Ret tt /\
  fs (snd (rename_one batch_dir batch_args batch_second w')) <> fs w'.
Proof.
  vm_compute. repeat split; try reflexivity. discriminate.
Qed.

(** ** String lemmas *)

Lemma append_assoc_s (a b c : string) : (a ++ b) ++ c = a ++ (b ++ c).
Proof. induction a as [|x a IH]; simpl; [reflexivity | now rewrite IH]. Qed.

Lemma length_append_s (a b : string) :
  String.length (a ++ b) = String.length a + String.length b.
Proof. induction a as [|x a IH]; simpl; [reflexivity | now rewrite IH]. Qed.

Lemma append_empty_s (a : string) : a ++ "" = a.
Proof. induction a as [|x a IH]; simpl; [reflexivity | now rewrite IH]. Qed.

Lemma all_chars_app (f : ascii -> bool) (a b : string) :
  all_chars f (a ++ b) = all_chars f a && all_chars f b.
Proof.
  induction a as [|x a IH]; simpl; [reflexivity | now rewrite IH, andb_assoc].
Qed.

Lemma contains_char_app (c : ascii) (a b : string) :
  contains (String c "") (a ++ b) = contains (String c "") a || contains (String c "") b.
Proof.
  induction a as [|x a IH]; simpl.
  - destruct b; reflexivity.
  - rewrite IH. destruct (Ascii.eqb c x); reflexivity.
Qed.

Lemma contains_char_cons (c x : ascii) (a : string) :
  contains (String c "") (String x a) = Ascii.eqb c x || contains (String c "") a.
Proof. simpl. destruct (Ascii.eqb c x); reflexivity. Qed.

Lemma all_chars_not_contains (f : ascii -> bool) (c : ascii) (s : string) :
  f c = false -> all_chars f s = true -> contains (String c "") s = false.
Proof.
  intros Hc. induction s as [|x s IH]; simpl; [reflexivity|].
  intros H. apply andb_prop in H as [Hx Hs].
  destruct (Ascii.eqb_spec c x) as [->|]; [congruence|].
  simpl. now apply IH.
Qed.

Lemma zeros_digits (n : nat) : all_digits (zeros n) = true.
Proof. induction n; simpl; auto. Qed.

Lemma string_of_uint_digits (d : Decimal.uint) :
  all_digits (NilEmpty.string_of_uint d) = true.
Proof. unfold all_digits. induction d; simpl; auto. Qed.

Lemma dec_N_digits (n : N) : all_digits (dec_N n) = true /\ dec_N n <> "".
Proof.
  unfold dec_N, NilZero.string_of_uint.
  destruct (N.to_uint n) eqn:E;
    (split; [try apply string_of_uint_digits; reflexivity | simpl; discriminate]).
Qed.


Lemma digits_num_chars (s : string) : all_digits s = true -> all_chars num_char s = true.
Proof.
  unfold all_digits. induction s as [|x s IH]; simpl; auto.
  intros H. apply andb_prop in H as [H1 H2]. unfold num_char. rewrite H1. simpl. auto.
Qed.

Lemma num_stem_chars (s : string) : all_chars num_char s = true -> all_chars stem_char s = true.
Proof.
  induction s as [|x s IH]; simpl; auto.
  intros H. apply andb_prop in H as [H1 H2]. unfold stem_char. rewrite H1. simpl. auto.
Qed.

Lemma py_format_d_chars (w : nat) (z : Z) : all_chars num_char (py_format_d w z) = true.
Proof.
  unfold py_format_d. destruct (dec_N_digits (Z.to_N (Z.abs z))) as [Hd _].
  destruct (Z.ltb z 0); rewrite ?all_chars_app; simpl;
    rewrite digits_num_chars, ?digits_num_chars by (apply zeros_digits || assumption);
    reflexivity.
Qed.

Lemma py_str_int_chars (z : Z) : all_chars num_char (py_str_int z) = true.
Proof.
  unfold py_str_int. destruct (Z.ltb z 0); simpl.
  - apply digits_num_chars, dec_N_digits.
  - apply digits_num_chars, dec_N_digits.
Qed.

Lemma canonical_stem_chars (md : FileMetaData) : all_chars stem_char (canonical_stem md) = true.
Proof.
  unfold canonical_stem.
  repeat rewrite all_chars_app; simpl.
  repeat rewrite num_stem_chars by apply py_format_d_chars. reflexivity.
Qed.

(** ** Path lemmas *)

Lemma split_slash_no_slash (s : string) :
  contains "/" s = false -> split_slash s = [s].
Proof.
  induction s as [|c s IH]; [reflexivity|].
  rewrite contains_char_cons. intros H. apply orb_false_elim in H as [H1 H2].
  simpl. rewrite IH by assumption. rewrite Ascii.eqb_sym, H1. reflexivity.
Qed.

Lemma path_div_simple (d : Path) (s : string) :
  contains "/" s = false -> s <> "" -> s <> "." -> path_div d s = app d [s].
Proof.
  intros Hs Hne Hdot.
  assert (Hc : components s = [s]).
  { unfold components. rewrite split_slash_no_slash by assumption. simpl.
    destruct (String.eqb_spec s "") as [|_]; [congruence|].
    destruct (String.eqb_spec s ".") as [|_]; [congruence|]. reflexivity. }
  unfold path_div. destruct s as [|c r]; [congruence|].
  rewrite contains_char_cons in Hs. apply orb_false_elim in Hs as [H1 _].
  rewrite Hc. destruct (Ascii.eqb_spec "/" c) as [|Hnc]; [discriminate|].
  destruct c as [[] [] [] [] [] [] [] []]; try reflexivity; exfalso; apply Hnc; reflexivity.
Qed.

Lemma path_name_snoc (d : Path) (s : string) :
  s <> "" -> s <> "/" -> path_name (app d [s]) = s.
Proof.
  intros H1 H2. unfold path_name. rewrite rev_app_distr. simpl.
  destruct s as [|c r]; [congruence|].
  destruct c as [[] [] [] [] [] [] [] []]; try reflexivity.
  destruct r; [congruence|]. reflexivity.
Qed.

Lemma rfind_app (c : ascii) (a b : string) :
  rfind c (a ++ b) =
  match rfind c b with
  | Some i => Some (String.length a + i)
  | None => rfind c a
  end.
Proof.
  induction a as [|x a IH]; simpl.
  - destruct (rfind c b); reflexivity.
  - rewrite IH. destruct (rfind c b); [reflexivity|].
    destruct (rfind c a); reflexivity.
Qed.

Lemma rfind_none (c : ascii) (s : string) :
  contains (String c "") s = false -> rfind c s = None.
Proof.
  induction s as [|x s IH]; [reflexivity|].
  rewrite contains_char_cons. intros H. apply orb_false_elim in H as [H1 H2].
  simpl. rewrite IH by assumption. rewrite Ascii.eqb_sym, H1. reflexivity.
Qed.

Lemma stake_app (a b : string) : stake (String.length a) (a ++ b) = a.
Proof. induction a as [|x a IH]; simpl; [reflexivity | now rewrite IH]. Qed.

Lemma sdrop_app (a b : string) : sdrop (String.length a) (a ++ b) = b.
Proof. induction a as [|x a IH]; simpl; [reflexivity | exact IH]. Qed.

Lemma split_at_last_dot (stem ext : string) :
  contains "." ext = false -> stem <> "" -> ext <> "" ->
  name_stem (stem ++ "." ++ ext) = stem /\ name_suffix (stem ++ "." ++ ext) = "." ++ ext.
Proof.
  intros Hext Hstem Hne.
  assert (Hr : rfind "." (stem ++ "." ++ ext) = Some (String.length stem)).
  { rewrite rfind_app. simpl. rewrite rfind_none by assumption.
    simpl. rewrite Nat.add_0_r. reflexivity. }
  assert (Hc : Nat.ltb 0 (String.length stem) &&
               Nat.ltb (S (String.length stem)) (String.length (stem ++ "." ++ ext)) = true).
  { rewrite length_append_s. simpl.
    destruct stem; [congruence|]. destruct ext; [congruence|].
    apply andb_true_intro; split; apply Nat.ltb_lt; simpl; lia. }
  unfold name_stem, name_suffix. rewrite Hr, Hc.
  split; [apply stake_app | apply sdrop_app].
Qed.

(** ** The collision search *)

Lemma probe_world (base : Path) (indices : list Z) (w : World) :
  snd (probe base indices w) = w.
Proof.
  revert w. induction indices as [|i rest IH]; intros w; [reflexivity|].
  simpl. unfold bind, lift, path_exists.
  destruct (with_name base _); [|reflexivity].
  destruct (negb _); [reflexivity | apply IH].
Qed.

Section Probe.
Variable base : Path.
Variable variant : Z -> Path.
Hypothesis variant_name :
  forall i, with_name base (path_stem base ++ "_" ++ py_str_int i ++ path_suffix base)
            = Ret (variant i).

Lemma probe_first_free (w : World) (n a k : nat) :
  k < n ->
  (forall j, j < k -> in_world w (variant (Z.of_nat (a + j))) = true) ->
  in_world w (variant (Z.of_nat (a + k))) = false ->
  fst (probe base (map Z.of_nat (seq a n)) w) = Ret (variant (Z.of_nat (a + k))).
Proof.
  revert a k. induction n as [|n IH]; intros a k Hk Hocc Hfree; [lia|].
  cbn [seq map probe]. unfold bind, lift, path_exists. rewrite variant_name.
  fold (in_world w (variant (Z.of_nat a))).
  destruct k as [|k].
  - rewrite Nat.add_0_r in Hfree |- *. rewrite Hfree. reflexivity.
  - pose proof (Hocc 0 ltac:(lia)) as H0. rewrite Nat.add_0_r in H0. rewrite H0. simpl.
    replace (a + S k) with (S a + k) by lia.
    apply IH; [lia| |now replace (S a + k) with (a + S k) by lia].
    intros j Hj. replace (S a + j) with (a + S j) by lia. apply Hocc. lia.
Qed.

Lemma probe_exhausted (w : World) (n a : nat) :
  (forall j, j < n -> in_world w (variant (Z.of_nat (a + j))) = true) ->
  fst (probe base (map Z.of_nat (seq a n)) w) = Raise (Exception unique_message).
Proof.
  revert a. induction n as [|n IH]; intros a Hocc; [reflexivity|].
  cbn [seq map probe]. unfold bind, lift, path_exists. rewrite variant_name.
  fold (in_world w (variant (Z.of_nat a))).
  pose proof (Hocc 0 ltac:(lia)) as H0. rewrite Nat.add_0_r in H0. rewrite H0. simpl.
  apply IH. intros j Hj. replace (S a + j) with (a + S j) by lia. apply Hocc. lia.
Qed.
End Probe.

Lemma format_name_split (md : FileMetaData) :
  format_name md = canonical_stem md ++ "." ++ extension md.
Proof. unfold format_name, canonical_stem. repeat rewrite append_assoc_s. reflexivity. Qed.

Lemma canonical_stem_nonempty (md : FileMetaData) : canonical_stem md <> "".
Proof.
  intros H. apply (f_equal String.length) in H. unfold canonical_stem in H.
  rewrite length_append_s in H. simpl in H. lia.
Qed.

Lemma ext_ok_spec (e : string) :
  ext_ok e = true -> e <> "" /\ contains "." e = false /\ contains "/" e = false.
Proof.
  unfold ext_ok. intros H. apply andb_prop in H as [H H3]. apply andb_prop in H as [H1 H2].
  apply negb_true_iff in H1, H2, H3. split; [|split; assumption].
  intros ->. discriminate.
Qed.

(** The variant [_i] computed by the loop is the spec's [_i] name. *)
Lemma loop_variant (d : Path) (md : FileMetaData) (i : Z) :
  ext_ok (extension md) = true ->
  with_name (get_filename_format d md)
    (path_stem (get_filename_format d md) ++ "_" ++ py_str_int i
     ++ path_suffix (get_filename_format d md))
  = Ret (spec_variant d md i).
Proof.
  intros Hok. apply ext_ok_spec in Hok as (Hne & Hdot & Hsl).
  pose proof (canonical_stem_chars md) as Hst.
  pose proof (canonical_stem_nonempty md) as Hstne.
  set (stem := canonical_stem md) in *. set (ext := extension md) in *.
  assert (Hstsl : contains "/" stem = false) by (apply (all_chars_not_contains stem_char); auto).
  assert (Hstdot : contains "." stem = false) by (apply (all_chars_not_contains stem_char); auto).
  pose proof (py_str_int_chars i) as Hi.
  assert (Hisl : contains "/" (py_str_int i) = false)
    by (apply (all_chars_not_contains num_char); auto).
  assert (Hbase : get_filename_format d md = app d [stem ++ "." ++ ext]).
  { unfold get_filename_format. rewrite format_name_split. apply path_div_simple.
    - rewrite !contains_char_app. simpl. rewrite Hstsl, Hsl. reflexivity.
    - intros H. apply (f_equal String.length) in H. rewrite length_append_s in H.
      simpl in H. lia.
    - intros H. apply (f_equal String.length) in H. rewrite length_append_s in H.
      simpl in H. destruct stem; [congruence|]. simpl in H. lia. }
  assert (Hname : path_name (get_filename_format d md) = stem ++ "." ++ ext).
  { rewrite Hbase. apply path_name_snoc.
    - intros H. apply (f_equal String.length) in H. rewrite length_append_s in H.
      simpl in H. lia.
    - intros H. apply (f_equal (contains "/")) in H.
      rewrite !contains_char_app, Hstsl, Hsl in H. discriminate. }
  destruct (split_at_last_dot stem ext Hdot Hstne Hne) as [Hs Hx].
  unfold path_stem, path_suffix. rewrite Hname, Hs, Hx.
  set (nn := stem ++ "_" ++ py_str_int i ++ "." ++ ext).
  assert (Hnnsl : contains "/" nn = false).
  { unfold nn. rewrite !contains_char_app. simpl. rewrite Hstsl, Hisl, Hsl. reflexivity. }
  assert (Hnnne : nn <> "").
  { unfold nn. intros H. apply (f_equal String.length) in H. rewrite length_append_s in H.
    simpl in H. lia. }
  assert (Hnndot : nn <> ".").
  { unfold nn. intros H. apply (f_equal String.length) in H. rewrite length_append_s in H.
    simpl in H. destruct stem; [congruence|]. simpl in H. lia. }
  unfold with_name. rewrite Hname.
  destruct (String.eqb_spec (stem ++ "." ++ ext) "") as [H|_].
  { apply (f_equal String.length) in H. rewrite length_append_s in H. simpl in H. lia. }
  destruct (String.eqb_spec nn "") as [|_]; [congruence|].
  rewrite Hnnsl. destruct (String.eqb_spec nn ".") as [|_]; [congruence|]. simpl.
  rewrite Hbase, removelast_last. unfold spec_variant. fold stem ext.
  rewrite path_div_simple by assumption. reflexivity.
Qed.

Lemma forallb_seq (f : nat -> bool) (a n : nat) :
  forallb f (seq a n) = true -> forall i, a <= i < a + n -> f i = true.
Proof.
  intros H i Hi. rewrite forallb_forall in H. apply H, in_seq. lia.
Qed.

(** C6: when the canonical path and the variants [_1] to [_k] are taken
    (k < 99) and [_(k+1)] is free, [get_unique_filepath] returns
    [_(k+1)]; when the canonical path and [_1] to [_99] are all taken, it
    raises "Could not find a unique filename". *)
Theorem plan_collision_monotone (d : Path) (md : FileMetaData) (w : World) :
  ext_ok (extension md) = true ->
  in_world w (get_filename_format d md) = true ->
  (forall k : nat, k < 99 ->
     (forall i : nat, 1 <= i <= k -> in_world w (spec_variant d md (Z.of_nat i)) = true) ->
     in_world w (spec_variant d md (Z.of_nat (S k))) = false ->
     fst (get_unique_filepath d md w) = Ret (spec_variant d md (Z.of_nat (S k)))) /\
  ((forall i : nat, 1 <= i <= 99 -> in_world w (spec_variant d md (Z.of_nat i)) = true) ->
   fst (get_unique_filepath d md w) = Raise (Exception unique_message)).
Proof.
  intros Hok _. split.
  - intros k Hk Hocc Hfree. unfold get_unique_filepath, range_1_100.
    apply (probe_first_free _ (spec_variant d md)); [intros i; now apply loop_variant|lia| |exact Hfree].
    intros j Hj. apply Hocc. lia.
  - intros Hocc. unfold get_unique_filepath, range_1_100.
    apply (probe_exhausted _ (spec_variant d md)); [intros i; now apply loop_variant|].
    intros j Hj. apply Hocc. lia.
Qed.

Lemma plan_collision_monotone_witness :
  (ext_ok "jpg" = true /\
   in_world (occupied_world 3) (get_filename_format batch_dir scenario_a) = true /\
   in_world (occupied_world 99) (get_filename_format batch_dir scenario_a) = true) /\
  fst (get_unique_filepath batch_dir scenario_a (occupied_world 3))
    = Ret (spec_variant batch_dir scenario_a 4) /\
  fst (get_unique_filepath batch_dir scenario_a (occupied_world 99))
    = Raise (Exception unique_message).
Proof.
  split; [split; [reflexivity | split; vm_compute; reflexivity]|split].
  - apply (proj1 (plan_collision_monotone batch_dir scenario_a (occupied_world 3)
                    eq_refl ltac:(vm_compute; reflexivity)) 3).
    + lia.
    + intros i Hi. apply (forallb_seq
        (fun i => in_world (occupied_world 3) (spec_variant batch_dir scenario_a (Z.of_nat i)))
        1 3); [vm_compute; reflexivity | lia].
    + vm_compute. reflexivity.
  - apply (proj2 (plan_collision_monotone batch_dir scenario_a (occupied_world 99)
                    eq_refl ltac:(vm_compute; reflexivity))).
    intros i Hi. apply (forallb_seq
        (fun i => in_world (occupied_world 99) (spec_variant batch_dir scenario_a (Z.of_nat i)))
        1 99); [vm_compute; reflexivity | lia].
Defined.

(** C9: [get_unique_filepath] only reads the world: two successive calls
    with the same directory and record, with no change in between, give
    the same result, and neither call changes the world. *)
Theorem plan_idempotent (d : Path) (md : FileMetaData) (w : World) :
  let '(r1, w1) := get_unique_filepath d md w in
  let '(r2, w2) := get_unique_filepath d md w1 in
  r1 = r2 /\ w1 = w /\ w2 = w.
Proof.
  pose proof (probe_world (get_filename_format d md) range_1_100 w) as Hw.
  unfold get_unique_filepath in *.
  destruct (probe _ range_1_100 w) as [r1 w1] eqn:E. simpl in Hw. subst w1.
  rewrite E. auto.
Qed.

Lemma rename_loop_app (d : Path) (args : Args) (a b : list Path) (w : World) :
  rename_loop d args (app a b) w = (rename_loop d args a ;;; rename_loop d args b) w.
Proof.
  revert w. induction a as [|p a IH]; intros w; [reflexivity|].
  cbn [rename_loop app]. unfold bind at 1 2 3. destruct (rename_one d args p w) as [[u|e] w'].
  - rewrite IH. reflexivity.
  - reflexivity.
Qed.

(** C5 (amended): the [try] of [rename_files] encloses the whole loop.
    When [get_unique_filepath] raises for an entry, the exception leaves
    the loop: "Could not find a unique filename" is printed on standard
    error, 1 is returned, the world is the one left by the earlier entries
    and the remaining entries are not processed. *)
Theorem batch_aborts_on_exhaustion (d : Path) (args : Args) (w w1 : World)
    (pre rest : list Path) (e : Path) (md : FileMetaData) :
  fst (iterdir d w) = Ret (app pre (e :: rest)) ->
  rename_loop d args pre w = (Ret tt, w1) ->
  fst (is_file e w1) = Ret true ->
  parse_filename e = Ret (Some md) ->
  fst (get_unique_filepath d md w1) = Raise (Exception unique_message) ->
  rename_files d args w = (Ret 1%Z, emit Stderr unique_message w1).
Proof.
  intros Hdir Hpre Hfile Hparse Hplan.
  assert (Ef : is_file e w1 = (Ret true, w1)) by (rewrite <- Hfile; reflexivity).
  assert (Eg : get_unique_filepath d md w1 = (Raise (Exception unique_message), w1)).
  { apply injective_projections; [exact Hplan | apply probe_world]. }
  assert (Hone : rename_one d args e w1 = (Raise (Exception unique_message), w1)).
  { unfold rename_one. unfold bind at 1. rewrite Ef. simpl negb.
    unfold bind at 1, lift. rewrite Hparse. cbv [negb]. unfold bind at 1. rewrite Eg. reflexivity. }
  assert (Ed : iterdir d w = (Ret (app pre (e :: rest)), w)) by (rewrite <- Hdir; reflexivity).
  unfold rename_files. unfold bind at 1. rewrite Ed.
  rewrite rename_loop_app. unfold bind at 1. rewrite Hpre.
  cbn [rename_loop]. unfold bind at 1. rewrite Hone. reflexivity.
Qed.

Lemma batch_aborts_on_exhaustion_witness :
  rename_files batch_dir batch_args batch_world
  = (Ret 1%Z, emit Stderr unique_message batch_world).
Proof.
  apply (batch_aborts_on_exhaustion batch_dir batch_args batch_world batch_world []
           (tl (map fst (fs batch_world))) batch_first scenario_a);
    vm_compute; reflexivity.
Defined.

(** ** The canonical format *)


Lemma format_check_range (w bound : nat) :
  forallb (format_check w) (seq 0 bound) = true ->
  forall z, (0 <= z < Z.of_nat bound)%Z ->
  String.length (py_format_d w z) = w /\ digits_value_acc 0 (py_format_d w z) = z.
Proof.
  intros H z Hz.
  pose proof (forallb_seq (format_check w) 0 bound H (Z.to_nat z) ltac:(lia)) as Hc.
  unfold format_check in Hc. rewrite Z2Nat.id in Hc by lia.
  apply andb_prop in Hc as [H1 H2]. split; [now apply Nat.eqb_eq | now apply Z.eqb_eq].
Qed.

Lemma format4_range (z : Z) :
  (0 <= z <= 9999)%Z ->
  String.length (py_format_d 4 z) = 4 /\ digits_value_acc 0 (py_format_d 4 z) = z.
Proof.
  intros Hz. apply (format_check_range 4 10000); [vm_compute; reflexivity|].
  assert (E : Z.of_nat 10000 = 10000%Z) by (vm_compute; reflexivity). lia.
Qed.

Lemma format2_range (z : Z) :
  (0 <= z <= 99)%Z ->
  String.length (py_format_d 2 z) = 2 /\ digits_value_acc 0 (py_format_d 2 z) = z.
Proof.
  intros Hz. apply (format_check_range 2 100); [vm_compute; reflexivity | lia].
Qed.

Lemma append_cancel (a b x y : string) :
  String.length a = String.length b -> a ++ x = b ++ y -> a = b /\ x = y.
Proof.
  revert b. induction a as [|c a IH]; intros [|c' b] Hl He; simpl in *; try discriminate.
  - auto.
  - injection He as -> He. injection Hl as Hl. destruct (IH b Hl He) as [-> ->]. auto.
Qed.

Lemma format_field_eq (w : nat) (z1 z2 : Z) (x y : string) :
  String.length (py_format_d w z1) = w -> digits_value_acc 0 (py_format_d w z1) = z1 ->
  String.length (py_format_d w z2) = w -> digits_value_acc 0 (py_format_d w z2) = z2 ->
  py_format_d w z1 ++ x = py_format_d w z2 ++ y -> z1 = z2 /\ x = y.
Proof.
  intros L1 V1 L2 V2 H. apply append_cancel in H as [H1 H2]; [|congruence].
  split; [congruence | exact H2].
Qed.

Lemma format_name_injective (t1 t2 : FileMetaData) :
  in_domain t1 -> in_domain t2 -> format_name t1 = format_name t2 -> t1 = t2.
Proof.
  destruct t1 as [y1 mo1 d1 h1 mi1 s1 e1], t2 as [y2 mo2 d2 h2 mi2 s2 e2].
  unfold in_domain, format_name; simpl.
  intros (Y1 & Mo1 & D1 & H1 & Mi1 & S1 & _) (Y2 & Mo2 & D2 & H2 & Mi2 & S2 & _) E.
  destruct (format4_range y1) as [LY1 VY1]; [lia|].
  destruct (format4_range y2) as [LY2 VY2]; [lia|].
  apply (format_field_eq 4 y1 y2) in E as [-> E]; auto. injection E as E.
  destruct (format2_range mo1) as [L1 V1]; [lia|]. destruct (format2_range mo2) as [L2 V2]; [lia|].
  apply (format_field_eq 2 mo1 mo2) in E as [-> E]; auto. injection E as E.
  clear L1 V1 L2 V2.
  destruct (format2_range d1) as [L1 V1]; [lia|]. destruct (format2_range d2) as [L2 V2]; [lia|].
  apply (format_field_eq 2 d1 d2) in E as [-> E]; auto. injection E as E.
  clear L1 V1 L2 V2.
  destruct (format2_range h1) as [L1 V1]; [lia|]. destruct (format2_range h2) as [L2 V2]; [lia|].
  apply (format_field_eq 2 h1 h2) in E as [-> E]; auto. injection E as E.
  clear L1 V1 L2 V2.
  destruct (format2_range mi1) as [L1 V1]; [lia|]. destruct (format2_range mi2) as [L2 V2]; [lia|].
  apply (format_field_eq 2 mi1 mi2) in E as [-> E]; auto. injection E as E.
  clear L1 V1 L2 V2.
  destruct (format2_range s1) as [L1 V1]; [lia|]. destruct (format2_range s2) as [L2 V2]; [lia|].
  apply (format_field_eq 2 s1 s2) in E as [-> E]; auto. injection E as ->.
  reflexivity.
Qed.

Lemma get_filename_format_shape (d : Path) (t : FileMetaData) :
  contains "/" (extension t) = false ->
  get_filename_format d t = app d [format_name t].
Proof.
  intros Hsl. unfold get_filename_format. rewrite format_name_split.
  pose proof (canonical_stem_chars t) as Hst.
  assert (Hstsl : contains "/" (canonical_stem t) = false)
    by (apply (all_chars_not_contains stem_char); auto).
  apply path_div_simple.
  - rewrite !contains_char_app. simpl. rewrite Hstsl, Hsl. reflexivity.
  - intros H. apply (f_equal String.length) in H. rewrite length_append_s in H.
    simpl in H. lia.
  - intros H. apply (f_equal String.length) in H. rewrite length_append_s in H.
    simpl in H. pose proof (canonical_stem_nonempty t).
    destruct (canonical_stem t); [congruence|]. simpl in H. lia.
Qed.

(** C7: on the NormalizedTimestamp domain (year 1-9999, month 1-12, day
    1-31, hour 0-23, minute 0-59, second 0-59, an extension without ['/']),
    [get_filename_format] maps two records to the same path exactly when
    they are equal: it is a function, and records differing in any field
    give distinct paths. *)
Theorem canonical_format_injective (d : Path) (t1 t2 : FileMetaData) :
  in_domain t1 -> in_domain t2 ->
  get_filename_format d t1 = get_filename_format d t2 <-> t1 = t2.
Proof.
  intros D1 D2. split; [|intros ->; reflexivity].
  rewrite !get_filename_format_shape by (apply D1 || apply D2).
  intros H. apply app_inj_tail in H as [_ H].
  now apply format_name_injective.
Qed.

Lemma canonical_format_injective_witness :
  (in_domain scenario_a /\ in_domain (mkFileMetaData 2021 1 1 1 1 2 "jpg")) /\
  (get_filename_format batch_dir scenario_a
   = get_filename_format batch_dir (mkFileMetaData 2021 1 1 1 1 2 "jpg")
   <-> scenario_a = mkFileMetaData 2021 1 1 1 1 2 "jpg").
Proof.
  assert (D1 : in_domain scenario_a) by (vm_compute; repeat split; congruence || reflexivity).
  assert (D2 : in_domain (mkFileMetaData 2021 1 1 1 1 2 "jpg"))
    by (vm_compute; repeat split; congruence || reflexivity).
  split; [split; assumption|].
  apply (canonical_format_injective batch_dir _ _ D1 D2).
Defined.

(** ** The regular-expression matcher *)

Lemma first_success_some {A} (f : nat -> option A) (ks : list nat) (r : A) :
  first_success f ks = Some r -> exists k, In k ks /\ f k = Some r.
Proof.
  induction ks as [|k ks IH]; simpl; [discriminate|].
  destruct (f k) eqn:E.
  - intros [= <-]. eauto.
  - intros H. destruct (IH H) as (k' & Hin & Hk'). eauto.
Qed.

Lemma first_success_in {A} (f : nat -> option A) (ks : list nat) (k : nat) (r : A) :
  In k ks -> f k = Some r -> exists r', first_success f ks = Some r'.
Proof.
  induction ks as [|k' ks IH]; simpl; [tauto|].
  intros [<-|Hin] Hk.
  - rewrite Hk. eauto.
  - destruct (f k'); eauto.
Qed.


Lemma run_length_le (k : cls) (s : string) : run_length k s <= String.length s.
Proof.
  induction s as [|c s IH]; simpl; [lia|]. destruct (cls_match k c); simpl; lia.
Qed.

Lemma run_length_app (k : cls) (s t : string) : run_length k s <= run_length k (s ++ t).
Proof.
  induction s as [|c s IH]; simpl; [lia|]. destruct (cls_match k c); lia.
Qed.

Lemma run_length_chars (k : cls) (s : string) (j : nat) :
  j <= run_length k s -> all_chars (cls_match k) (stake j s) = true.
Proof.
  revert s. induction j as [|j IH]; intros s Hj; [reflexivity|].
  destruct s as [|c s]; simpl in *; [lia|].
  destruct (cls_match k c) eqn:E; simpl in *; [|lia].
  apply IH. lia.
Qed.

Lemma in_rev_seq (k r : nat) : In k (rev (seq 1 r)) <-> 1 <= k <= r.
Proof. rewrite <- in_rev, in_seq. lia. Qed.

(** Each candidate length is one the piece allows and stays within the run
    of characters of its class. *)
Lemma candidates_spec (p : piece) (s : string) (k : nat) :
  In k (candidates p s) ->
  k <= run_length (piece_cls p) s /\
  match p with
  | One _ => k = 1
  | Exactly _ n => k = n
  | Plus _ => 1 <= k
  end.
Proof.
  destruct p as [c|c n|c]; unfold candidates, piece_cls.
  - destruct (Nat.leb_spec 1 (run_length c s)); simpl; [|tauto]. intros [<-|[]]. lia.
  - destruct (Nat.leb_spec n (run_length c s)); simpl; [|tauto]. intros [<-|[]]. lia.
  - rewrite in_rev_seq. lia.
Qed.

Lemma candidates_app (p : piece) (s t : string) (k : nat) :
  In k (candidates p s) -> In k (candidates p (s ++ t)).
Proof.
  pose proof (run_length_app (piece_cls p) s t) as Hr.
  destruct p as [c|c n|c]; unfold candidates, piece_cls in *.
  - destruct (Nat.leb_spec 1 (run_length c s)); [|intros []].
    destruct (Nat.leb_spec 1 (run_length c (s ++ t))); [auto|lia].
  - destruct (Nat.leb_spec n (run_length c s)); [|intros []].
    destruct (Nat.leb_spec n (run_length c (s ++ t))); [auto|lia].
  - rewrite !in_rev_seq. lia.
Qed.

Lemma sdrop_app_le (k : nat) (s t : string) :
  k <= String.length s -> sdrop k (s ++ t) = sdrop k s ++ t.
Proof.
  revert s. induction k as [|k IH]; intros s Hk; [reflexivity|].
  destruct s as [|c s]; simpl in *; [lia|]. apply IH. lia.
Qed.

Lemma stake_app_le (k : nat) (s t : string) :
  k <= String.length s -> stake k (s ++ t) = stake k s.
Proof.
  revert s. induction k as [|k IH]; intros s Hk; [reflexivity|].
  destruct s as [|c s]; simpl in *; [lia|]. f_equal. apply IH. lia.
Qed.

Lemma match_nodes_cons (n : node) (ns : list node) (s : string) (caps : list string) :
  match_nodes (n :: ns) s = Some caps ->
  exists k caps', In k (candidates (node_piece n) s) /\
    match_nodes ns (sdrop k s) = Some caps' /\
    caps = match n with Group _ => stake k s :: caps' | Bare _ => caps' end.
Proof.
  simpl. intros H. apply first_success_some in H as (k & Hin & Hk).
  destruct (match_nodes ns (sdrop k s)) as [caps'|] eqn:E; [|discriminate].
  injection Hk as <-. eauto.
Qed.

(** [re.match] only looks at a prefix: a sequence that matches [s] also
    matches [s ++ t]. *)
Lemma match_nodes_app (ns : list node) (s t : string) (caps : list string) :
  match_nodes ns s = Some caps -> exists caps', match_nodes ns (s ++ t) = Some caps'.
Proof.
  revert s caps. induction ns as [|n ns IH]; intros s caps H; [eexists; reflexivity|].
  apply match_nodes_cons in H as (k & caps' & Hin & Hm & _).
  pose proof (candidates_spec _ _ _ Hin) as [Hk _].
  pose proof (run_length_le (piece_cls (node_piece n)) s).
  destruct (IH _ _ Hm) as [caps'' Hm'].
  simpl. rewrite <- (sdrop_app_le k s t) in Hm' by lia.
  eapply first_success_in; [apply candidates_app; exact Hin|].
  rewrite Hm'. reflexivity.
Qed.


Lemma stake_length (k : nat) (s : string) :
  k <= String.length s -> String.length (stake k s) = k.
Proof.
  revert s. induction k as [|k IH]; intros [|c s] Hk; simpl in *; try lia.
  f_equal. apply IH. lia.
Qed.

Lemma match_nodes_caps (ns : list node) (s : string) (caps : list string) :
  match_nodes ns s = Some caps -> Forall2 cap_ok (group_pieces ns) caps.
Proof.
  revert s caps. induction ns as [|n ns IH]; intros s caps H.
  - injection H as <-. constructor.
  - apply match_nodes_cons in H as (k & caps' & Hin & Hm & ->).
    destruct (candidates_spec _ _ _ Hin) as [Hk Hp].
    pose proof (run_length_le (piece_cls (node_piece n)) s).
    destruct n as [p|p]; simpl in *; [eauto|].
    constructor; [|eauto]. split.
    + now apply run_length_chars.
    + rewrite stake_length by lia. destruct p; simpl in *; lia.
Qed.

Lemma match_nodes_first (n : node) (ns : list node) (s : string) (caps : list string) :
  match_nodes (n :: ns) s = Some caps ->
  match node_piece n with Exactly _ 0 => False | _ => True end ->
  exists c r, s = String c r /\ cls_match (piece_cls (node_piece n)) c = true.
Proof.
  intros H Hw. apply match_nodes_cons in H as (k & caps' & Hin & _ & _).
  destruct (candidates_spec _ _ _ Hin) as [Hk Hp].
  assert (1 <= k) by (destruct (node_piece n) as [|? []|]; simpl in *; lia || contradiction).
  destruct s as [|c r]; simpl in Hk; [lia|].
  destruct (cls_match (piece_cls (node_piece n)) c) eqn:E; [eauto|lia].
Qed.

Lemma contains_sdrop (x : string) (k : nat) (s : string) :
  contains x (sdrop k s) = true -> contains x s = true.
Proof.
  revert s. induction k as [|k IH]; intros [|c s] H; simpl in *; auto.
  apply IH in H. rewrite H. apply orb_true_r.
Qed.

Lemma match_nodes_lit_in (c : ascii) (ns : list node) (s : string) (caps : list string) :
  In (Bare (One (CLit c))) ns -> match_nodes ns s = Some caps ->
  contains (String c "") s = true.
Proof.
  revert s caps. induction ns as [|n ns IH]; intros s caps Hin H; [destruct Hin|].
  destruct Hin as [->|Hin].
  - apply match_nodes_first in H as (x & r & -> & Hx); [|exact I]. simpl in Hx.
    apply Ascii.eqb_eq in Hx. subst. simpl. rewrite Ascii.eqb_refl. reflexivity.
  - apply match_nodes_cons in H as (k & caps' & _ & Hm & _).
    eapply contains_sdrop, IH; eauto.
Qed.

Lemma filter_some_app {A} (l l' : list (option A)) :
  filter_some (app l l') = app (filter_some l) (filter_some l').
Proof. induction l as [|[x|] l IH]; simpl; rewrite ?IH; reflexivity. Qed.

Lemma filter_some_nones {A} (ls : list (list (option A))) :
  Forall (Forall (fun o => o = None)) ls -> filter_some (concat ls) = [].
Proof.
  induction 1 as [|l ls Hl _ IH]; [reflexivity|]. simpl.
  rewrite filter_some_app, IH, app_nil_r.
  induction Hl as [|o l -> _ IH']; [reflexivity|exact IH'].
Qed.

Lemma filter_some_map {A} (l : list A) : filter_some (map Some l) = l.
Proof. induction l as [|x l IH]; simpl; rewrite ?IH; reflexivity. Qed.

Lemma repeat_nones {A} (n : nat) : Forall (fun o : option A => o = None) (repeat None n).
Proof. induction n; constructor; auto. Qed.

(** The groups of [re.match] are those of the first alternative that
    matches. *)
Lemma re_match_winner (alts : list (list node)) (s : string) (gs : list (option string)) :
  re_match alts s = Some gs ->
  exists pre a post caps,
    alts = app pre (a :: post) /\ Forall (fun b => match_nodes b s = None) pre /\
    match_nodes a s = Some caps /\ filter_some gs = caps.
Proof.
  revert gs. induction alts as [|a alts IH]; intros gs H; simpl in H; [discriminate|].
  destruct (match_nodes a s) as [caps|] eqn:E.
  - injection H as <-. exists [], a, alts, caps. repeat split; auto.
    rewrite filter_some_app, filter_some_map, filter_some_nones, app_nil_r; [reflexivity|].
    apply Forall_forall. intros x Hx. apply in_map_iff in Hx as (b & <- & _).
    apply repeat_nones.
  - destruct (re_match alts s) as [gs'|] eqn:E'; simpl in H; [|discriminate].
    injection H as <-. destruct (IH gs' eq_refl) as (pre & b & post & caps & -> & Hpre & Hb & Hf).
    exists (a :: pre), b, post, caps. repeat split; auto.
    rewrite filter_some_app, Hf.
    assert (Hn : filter_some (repeat (@None string) (ngroups a)) = []).
    { induction (ngroups a); simpl; auto. }
    rewrite Hn. reflexivity.
Qed.

Lemma re_match_some (alts : list (list node)) (s : string) (a : list node) (caps : list string) :
  In a alts -> match_nodes a s = Some caps -> exists gs, re_match alts s = Some gs.
Proof.
  induction alts as [|b alts IH]; intros Hin Ha; [destruct Hin|]. simpl.
  destruct (match_nodes b s) eqn:E; [eauto|].
  destruct Hin as [<-|Hin]; [congruence|].
  destruct (IH Hin Ha) as [gs ->]. simpl. eauto.
Qed.

(** ** The extension of a parsed name *)

Lemma rfind_contains (c : ascii) (s : string) :
  contains (String c "") s = true -> exists i, rfind c s = Some i.
Proof.
  induction s as [|x s IH]; [discriminate|].
  rewrite contains_char_cons. simpl. intros H.
  destruct (rfind c s) as [i|]; [eauto|].
  apply orb_true_elim in H as [H|H].
  - rewrite Ascii.eqb_sym, H. eauto.
  - destruct (IH H) as [i Hi]. discriminate.
Qed.

Lemma rfind_lt (c : ascii) (s : string) (i : nat) :
  rfind c s = Some i -> i < String.length s.
Proof.
  revert i. induction s as [|x s IH]; intros i H; simpl in H; [discriminate|].
  destruct (rfind c s) as [j|] eqn:E.
  - injection H as <-. specialize (IH j eq_refl). simpl. lia.
  - destruct (Ascii.eqb x c); [injection H as <-; simpl; lia | discriminate].
Qed.

Lemma rfind_dot_after (s : string) (i : nat) :
  rfind "." s = Some i -> after_last_dot s = Some (sdrop (S i) s).
Proof.
  revert i. induction s as [|x s IH]; intros i H; simpl in H; [discriminate|].
  simpl. destruct (rfind "." s) as [j|] eqn:E.
  - injection H as <-. rewrite (IH j eq_refl). reflexivity.
  - destruct (Ascii.eqb x ".") eqn:Ex; [|discriminate]. injection H as <-.
    assert (after_last_dot s = None).
    { clear IH. induction s as [|y s IH']; [reflexivity|]. simpl in E |- *.
      destruct (rfind "." s); [discriminate|].
      rewrite IH' by reflexivity. destruct (Ascii.eqb y "."); [discriminate|reflexivity]. }
    rewrite H. reflexivity.
Qed.

Lemma rfind_head (c x : ascii) (r : string) :
  rfind c (String x r) = Some 0 -> x = c.
Proof.
  simpl. destruct (rfind c r); [discriminate|].
  destruct (Ascii.eqb_spec x c); [auto|discriminate].
Qed.

Lemma sdrop_sdrop (a b : nat) (s : string) : sdrop a (sdrop b s) = sdrop (b + a) s.
Proof.
  revert s. induction b as [|b IH]; intros s; [reflexivity|].
  destruct s as [|c s]; simpl; [destruct a; reflexivity|apply IH].
Qed.

Lemma sdrop_long (k : nat) (s : string) : String.length s <= k -> sdrop k s = "".
Proof.
  revert s. induction k as [|k IH]; intros [|c s] H; simpl in *; auto; [lia|].
  apply IH. lia.
Qed.

Lemma ext_of_suffix (name : string) (i : nat) :
  rfind "." name = Some i -> 0 < i -> sdrop 1 (name_suffix name) = sdrop (S i) name.
Proof.
  intros Hr Hi. pose proof (rfind_lt _ _ _ Hr) as Hlt.
  unfold name_suffix. rewrite Hr.
  destruct (Nat.ltb_spec 0 i); [|lia].
  destruct (Nat.ltb_spec (S i) (String.length name)); cbn [andb].
  - rewrite sdrop_sdrop, Nat.add_1_r. reflexivity.
  - rewrite (sdrop_long (S i) name) by lia. reflexivity.
Qed.

Lemma parse_filename_ext (p : Path) (md : FileMetaData) :
  parse_filename p = Ret (Some md) ->
  extension md = sdrop 1 (path_suffix p) /\ exists gs, re_match pattern (path_name p) = Some gs.
Proof.
  intros H. unfold parse_filename in H. cbv zeta in H.
  destruct (re_match pattern (path_name p)) as [gs|] eqn:R; [|discriminate].
  match type of H with obind ?o _ = _ => destruct o as [[[y mo] dd]|e] end;
    cbn [obind] in H; [|discriminate].
  match type of H with obind ?o _ = _ => destruct o as [[[h mi] sc]|e] end;
    cbn [obind] in H; [|discriminate].
  injection H as <-. simpl. eauto.
Qed.

(** Every alternative of the pattern holds a literal ['.'] and starts with
    a piece that does not accept ['.']. *)
Lemma pattern_alternatives (a : list node) :
  In a pattern ->
  In (Bare (One (CLit "."))) a /\
  exists n ns, a = n :: ns /\
    match node_piece n with Exactly _ 0 => False | _ => True end /\
    cls_match (piece_cls (node_piece n)) "." = false.
Proof.
  unfold pattern.
  intros Hin; repeat (destruct Hin as [<-|Hin]; [split;
    [cbn; repeat (first [left; reflexivity | right])
    | eexists _, _; split; [reflexivity | split; [exact I | reflexivity]]]|]);
  destruct Hin.
Qed.

Lemma parse_ext_last_dot (p : Path) (md : FileMetaData) :
  parse_filename p = Ret (Some md) ->
  after_last_dot (path_name p) = Some (extension md).
Proof.
  intros H. apply parse_filename_ext in H as [Hext [gs R]].
  apply re_match_winner in R as (pre & a & post & caps & Hsplit & _ & Hm & _).
  assert (Hin : In a pattern) by (rewrite Hsplit; apply in_or_app; right; left; reflexivity).
  destruct (pattern_alternatives a Hin) as (Hdot & n & ns & -> & Hw & Hn).
  pose proof (match_nodes_lit_in "." _ _ _ Hdot Hm) as Hc.
  destruct (rfind_contains _ _ Hc) as [i Hi].
  apply match_nodes_first in Hm as (x & r & Hname & Hx); [|exact Hw].
  assert (Hpos : 0 < i).
  { destruct i; [|lia]. rewrite Hname in Hi. apply rfind_head in Hi. subst. congruence. }
  rewrite Hext. unfold path_suffix. rewrite (ext_of_suffix _ _ Hi Hpos).
  apply rfind_dot_after. exact Hi.
Qed.

(** C8: whenever [parse_filename] returns a record, its extension is the
    text after the last ['.'] of the file name, not the [(\w+)] group the
    pattern captured. *)
Theorem parse_extension_after_last_dot (p : Path) (md : FileMetaData) :
  parse_filename p = Ret (Some md) ->
  after_last_dot (path_name p) = Some (extension md).
Proof. apply parse_ext_last_dot. Qed.

Lemma parse_extension_after_last_dot_witness :
  parse_filename ["d"; "2021-01-01 01.01.01.a.b.jpg"]
    = Ret (Some (mkFileMetaData 2021 1 1 1 1 1 "jpg")) /\
  after_last_dot "2021-01-01 01.01.01.a.b.jpg" = Some "jpg".
Proof.
  split; [vm_compute; reflexivity|].
  apply (parse_extension_after_last_dot ["d"; "2021-01-01 01.01.01.a.b.jpg"]
           (mkFileMetaData 2021 1 1 1 1 1 "jpg")).
  vm_compute. reflexivity.
Defined.

(** ** Captures of fixed-width pieces *)


Lemma match_nodes_fixed (n : node) (ns : list node) (s : string) (caps : list string) (w : nat) :
  match_nodes (n :: ns) s = Some caps ->
  fixed_width (node_piece n) = Some w ->
  w <= String.length s /\
  exists caps', match_nodes ns (sdrop w s) = Some caps' /\
    caps = match n with Group _ => stake w s :: caps' | Bare _ => caps' end.
Proof.
  intros H Hw. apply match_nodes_cons in H as (k & caps' & Hin & Hm & ->).
  destruct (candidates_spec _ _ _ Hin) as [Hk Hp].
  pose proof (run_length_le (piece_cls (node_piece n)) s).
  assert (k = w) as -> by (destruct (node_piece n); simpl in *; congruence).
  split; [lia|]. eauto.
Qed.

Lemma sdrop_length (k : nat) (s : string) :
  String.length (sdrop k s) = String.length s - k.
Proof.
  revert s. induction k as [|k IH]; intros [|c s]; simpl; auto.
Qed.

Lemma Forall2_cons_l_inv {A B} (R : A -> B -> Prop) (a : A) (l : list A) (l' : list B) :
  Forall2 R (a :: l) l' -> exists b l'', l' = b :: l'' /\ R a b /\ Forall2 R l l''.
Proof. intros H. inversion H; subst. eauto. Qed.

Lemma Forall2_nil_l_inv {A B} (R : A -> B -> Prop) (l' : list B) :
  Forall2 R [] l' -> l' = [].
Proof. intros H. inversion H. reflexivity. Qed.

Lemma py_int_digits (c : string) :
  all_digits c = true -> c <> "" -> py_int c = Ret (digits_value_acc 0 c).
Proof.
  intros Hd Hne. unfold py_int. rewrite Hd.
  destruct (String.eqb_spec c "") as [|_]; [congruence|]. reflexivity.
Qed.

Lemma cap_digit_int (n : nat) (c : string) :
  cap_ok (Exactly CDigit (S n)) c -> py_int c = Ret (digits_value_acc 0 c).
Proof.
  intros [Hd Hl]. apply py_int_digits; [exact Hd|].
  intros ->. simpl in Hl. discriminate.
Qed.

Lemma all_chars_stake (f : ascii -> bool) (k : nat) (s : string) :
  all_chars f s = true -> all_chars f (stake k s) = true.
Proof.
  revert s. induction k as [|k IH]; intros [|c s] H; simpl in *; auto.
  apply andb_prop in H as [H1 H2]. rewrite H1. simpl. auto.
Qed.

Lemma all_chars_sdrop (f : ascii -> bool) (k : nat) (s : string) :
  all_chars f s = true -> all_chars f (sdrop k s) = true.
Proof.
  revert s. induction k as [|k IH]; intros [|c s] H; simpl in *; auto.
  apply andb_prop in H as [H1 H2]. auto.
Qed.

(** The four-digit group of the VID grammar, split as [g[:2]] and [g[2:]]. *)
Lemma ordinal_halves_int (c : string) :
  cap_ok (Exactly CDigit 4) c ->
  py_int (stake 2 c) = Ret (digits_value_acc 0 (stake 2 c)) /\
  py_int (sdrop 2 c) = Ret (digits_value_acc 0 (sdrop 2 c)).
Proof.
  intros [Hd Hl]. simpl in Hl. split; apply py_int_digits.
  - now apply all_chars_stake.
  - intros H. apply (f_equal String.length) in H. rewrite stake_length in H by lia.
    discriminate.
  - now apply all_chars_sdrop.
  - intros H. apply (f_equal String.length) in H. rewrite sdrop_length in H. simpl in H. lia.
Qed.

Ltac peel H :=
  match type of H with
  | match_nodes (?n :: _) _ = Some _ =>
      let w := eval compute in (fixed_width (node_piece n)) in
      match w with
      | Some ?w' =>
          let Hl := fresh "Hl" in let cs := fresh "cs" in let He := fresh "He" in
          apply (match_nodes_fixed _ _ _ _ w') in H; [|reflexivity];
          destruct H as (Hl & cs & H & He); subst
      end
  end.

(** The VID alternative: its captures, and the tag at offset 13. *)
Lemma alt5_captures (u : string) (caps : list string) :
  match_nodes alt5 u = Some caps ->
  exists y mo d tag ord ext,
    caps = [y; mo; d; tag; ord; ext] /\
    cap_ok (Exactly CDigit 4) y /\ cap_ok (Exactly CDigit 2) mo /\
    cap_ok (Exactly CDigit 2) d /\ cap_ok (Exactly CWord 2) tag /\
    cap_ok (Exactly CDigit 4) ord /\
    tag = stake 2 (sdrop 13 u) /\ 15 <= String.length u.
Proof.
  intros H. pose proof (match_nodes_caps _ _ _ H) as Hc. cbn in Hc.
  repeat match goal with
         | Hf : Forall2 _ (_ :: _) _ |- _ =>
             let c := fresh "c" in let Hok := fresh "Hok" in let Hr := fresh "Hr" in
             apply Forall2_cons_l_inv in Hf; destruct Hf as (c & ? & -> & Hok & Hr)
         | Hf : Forall2 _ [] _ |- _ => apply Forall2_nil_l_inv in Hf; subst
         end.
  unfold alt5 in H. cbn [lits app] in H.
  do 9 peel H. peel H.
  rewrite !sdrop_length in *. rewrite !sdrop_sdrop in *. cbn [Nat.add gd gw lit gdplus gwplus] in *.
  repeat match goal with
         | He : _ :: _ = _ :: _ |- _ => injection He as ? He
         end.
  subst. do 6 eexists. split; [reflexivity|].
  repeat match goal with |- _ /\ _ => split end; try assumption; try reflexivity; try lia.
Qed.

Ltac split_caps :=
  repeat match goal with
         | Hf : Forall2 _ (_ :: _) _ |- _ =>
             let c := fresh "c" in let Hok := fresh "Hok" in let Hr := fresh "Hr" in
             apply Forall2_cons_l_inv in Hf; destruct Hf as (c & ? & -> & Hok & Hr)
         | Hf : Forall2 _ [] _ |- _ => apply Forall2_nil_l_inv in Hf; subst
         end.

(** Off the VID alternative, every group read by [int] is a digit group:
    a name the pattern matches is parsed into a record. *)
Lemma parse_succeeds_off_vid (p : Path) :
  match_nodes alt5 (path_name p) = None ->
  (exists gs, re_match pattern (path_name p) = Some gs) ->
  exists md, parse_filename p = Ret (Some md).
Proof.
  intros H5 [gs R].
  pose proof R as R'.
  apply re_match_winner in R' as (pre & a & post & caps & Hsplit & _ & Hm & Hf).
  assert (Hin : In a pattern) by (rewrite Hsplit; apply in_or_app; right; left; reflexivity).
  pose proof (match_nodes_caps _ _ _ Hm) as Hc.
  unfold parse_filename. cbv zeta. rewrite R. cbv beta iota. rewrite Hf.
  unfold pattern in Hin.
  destruct Hin as [<-|[<-|[<-|[<-|[<-|[<-|[<-|[<-|[<-|[]]]]]]]]]];
    [| | | |congruence| | | |]; cbn in Hc; split_caps;
    cbn [slice firstn skipn unpack_int3 Nat.sub list_index nth_error List.length Nat.eqb andb];
    destruct (contains "WA" (path_name p));
    repeat (cbn [obind]; match goal with
           | Hk : cap_ok (Exactly CDigit (S _)) ?c |- context [py_int ?c] =>
               rewrite (cap_digit_int _ _ Hk)
           end);
    eexists; reflexivity.
Qed.

Lemma match_nodes_lits (x : string) (ns : list node) (s : string) (caps : list string) :
  match_nodes (app (lits x) ns) s = Some caps ->
  exists r, s = x ++ r /\ match_nodes ns r = Some caps.
Proof.
  revert s caps. induction x as [|c x IH]; intros s caps H; [exists s; auto|].
  cbn [lits app] in H. pose proof H as H'.
  apply match_nodes_first in H' as (c' & r & -> & Hc); [|exact I].
  cbn in Hc. apply Ascii.eqb_eq in Hc. subst c'.
  apply match_nodes_cons in H as (k & caps' & Hin & Hm & Hcaps).
  apply candidates_spec in Hin as [_ Hk]. cbn in Hk. subst k. cbn in Hm, Hcaps. subst caps'.
  apply IH in Hm as (r' & -> & Hm). exists r'. split; [reflexivity|exact Hm].
Qed.

(** When the VID alternative matches, it is the one [re.match] reports:
    the four alternatives before it need a first character other than
    ['V']. *)
Lemma re_match_vid (u : string) (caps : list string) :
  match_nodes alt5 u = Some caps ->
  exists gs, re_match pattern u = Some gs /\ filter_some gs = caps.
Proof.
  intros H. pose proof H as H'. unfold alt5 in H'.
  apply match_nodes_lits in H' as (r & -> & _).
  unfold pattern. cbn [re_match].
  replace (match_nodes alt1 ("VID_" ++ r)) with (@None (list string)) by reflexivity.
  replace (match_nodes alt2 ("VID_" ++ r)) with (@None (list string)) by reflexivity.
  replace (match_nodes alt3 ("VID_" ++ r)) with (@None (list string)) by reflexivity.
  replace (match_nodes alt4 ("VID_" ++ r)) with (@None (list string)) by reflexivity.
  rewrite H. cbn [option_map]. eexists. split; [reflexivity|].
  rewrite !filter_some_app, filter_some_map. simpl. apply app_nil_r.
Qed.

(** [parse_filename] on a name of the VID grammar: the date from the
    first three groups, then the time by the ["WA" in name] test. *)
Lemma parse_vid (p : Path) (caps : list string) :
  match_nodes alt5 (path_name p) = Some caps ->
  exists y mo d tag ord ext,
    caps = [y; mo; d; tag; ord; ext] /\ tag = stake 2 (sdrop 13 (path_name p)) /\
    15 <= String.length (path_name p) /\
    parse_filename p =
      if contains "WA" (path_name p) then
        Ret (Some (mkFileMetaData (digits_value_acc 0 y) (digits_value_acc 0 mo)
                     (digits_value_acc 0 d) (digits_value_acc 0 ord) 0 0
                     (sdrop 1 (path_suffix p))))
      else
        h <-? py_int tag ;;
        Ret (Some (mkFileMetaData (digits_value_acc 0 y) (digits_value_acc 0 mo)
                     (digits_value_acc 0 d) h (digits_value_acc 0 (stake 2 ord))
                     (digits_value_acc 0 (sdrop 2 ord)) (sdrop 1 (path_suffix p)))).
Proof.
  intros H.
  destruct (re_match_vid _ _ H) as (gs & R & F).
  pose proof H as Hv. unfold alt5 in Hv. apply match_nodes_lits in Hv as (r & Hr & _).
  assert (HV : contains "VID" (path_name p) = true) by (rewrite Hr; reflexivity).
  destruct (alt5_captures _ _ H)
    as (y & mo & d & tag & ord & ext & -> & Hy & Hmo & Hd & Htag & Hord & Et & Hl).
  exists y, mo, d, tag, ord, ext. split; [reflexivity|]. split; [exact Et|]. split; [exact Hl|].
  destruct (ordinal_halves_int _ Hord) as [O1 O2].
  unfold parse_filename. cbv zeta. rewrite R. cbv beta iota. rewrite F.
  cbn [slice firstn skipn unpack_int3 Nat.sub list_index nth_error List.length Nat.eqb andb].
  rewrite (cap_digit_int _ _ Hy), (cap_digit_int _ _ Hmo), (cap_digit_int _ _ Hd).
  cbn [obind]. rewrite HV.
  destruct (contains "WA" (path_name p)); cbn [obind].
  - rewrite (cap_digit_int _ _ Hord). reflexivity.
  - destruct (py_int tag); cbn [obind]; [|reflexivity].
    rewrite O1. cbn [obind]. rewrite O2. reflexivity.
Qed.

Lemma is_prefix_app (x s t : string) :
  is_prefix x s = true -> is_prefix x (s ++ t) = true.
Proof.
  revert s. induction x as [|c x IH]; intros [|d s] H; simpl in *; try discriminate; auto.
  apply andb_prop in H as [H1 H2]. rewrite H1. simpl. auto.
Qed.

Lemma contains_app_l (x s t : string) :
  contains x s = true -> contains x (s ++ t) = true.
Proof.
  induction s as [|c s IH]; intros H.
  - destruct x; [destruct t; reflexivity|]. simpl in H. discriminate.
  - simpl in H |- *. apply orb_prop in H as [H|H].
    + change (String c (s ++ t)) with (String c s ++ t). rewrite (is_prefix_app _ _ _ H). reflexivity.
    + rewrite IH by exact H. apply orb_true_r.
Qed.

(** C2 (as the code behaves): for a name of the VID grammar that contains
    ["WA"], as the messaging videos' ["WA"] tag does, [parse_filename]
    returns a record whose minute and second are 0 and whose hour is the
    value of the four-digit ordinal group, [int(groups[4])]; the hour is 0
    only for the ordinal ["0000"]. *)
Theorem vid_wa_hour_from_ordinal (p : Path) (caps : list string) :
  match_nodes alt5 (path_name p) = Some caps ->
  contains "WA" (path_name p) = true ->
  exists md ord, parse_filename p = Ret (Some md) /\ nth_error caps 4 = Some ord /\
    hour md = digits_value_acc 0 ord /\ minute md = 0%Z /\ second md = 0%Z.
Proof.
  intros H W. destruct (parse_vid _ _ H) as (y & mo & d & tag & ord & ext & -> & _ & _ & E).
  rewrite W in E. eexists _, ord. split; [exact E|].
  split; [reflexivity|]. split; [reflexivity|]. split; reflexivity.
Qed.

Lemma vid_wa_hour_from_ordinal_witness :
  match_nodes alt5 "VID_20210101_WA1234.mp4" = Some ["2021"; "01"; "01"; "WA"; "1234"; "mp4"] /\
  contains "WA" "VID_20210101_WA1234.mp4" = true /\
  exists md ord, parse_filename ["d"; "VID_20210101_WA1234.mp4"] = Ret (Some md) /\
    nth_error ["2021"; "01"; "01"; "WA"; "1234"; "mp4"] 4 = Some ord /\
    hour md = digits_value_acc 0 ord /\ minute md = 0%Z /\ second md = 0%Z.
Proof.
  split; [vm_compute; reflexivity|]. split; [vm_compute; reflexivity|].
  apply (vid_wa_hour_from_ordinal ["d"; "VID_20210101_WA1234.mp4"]
           ["2021"; "01"; "01"; "WA"; "1234"; "mp4"]); vm_compute; reflexivity.
Defined.

Lemma accepted_name (dir : Path) (s : string) (md : FileMetaData) :
  parse_filename (app dir [s]) = Ret (Some md) ->
  path_name (app dir [s]) = s /\ exists c r, s = String c r /\ (c <> "/"%char \/ r <> "").
Proof.
  intros H. apply parse_filename_ext in H as [_ [gs R]].
  destruct s as [|c r].
  - unfold path_name in R. rewrite rev_app_distr in R. cbn [rev app] in R.
    vm_compute in R. discriminate.
  - destruct (Ascii.eqb_spec c "/") as [->|Hc]; [destruct r as [|c' r]|].
    + unfold path_name in R. rewrite rev_app_distr in R. cbn [rev app] in R.
      destruct (rev dir); vm_compute in R; discriminate.
    + split; [apply path_name_snoc; discriminate|]. exists "/"%char, (String c' r).
      split; [reflexivity|right; discriminate].
    + split; [apply path_name_snoc; [discriminate|]|].
      * intros E. injection E as E _. contradiction.
      * exists c, r. auto.
Qed.

Lemma path_name_extend (dir : Path) (c : ascii) (r t : string) :
  c <> "/"%char \/ r <> "" -> path_name (app dir [String c r ++ t]) = String c r ++ t.
Proof.
  intros Hc. apply path_name_snoc; [discriminate|]. simpl. intros E.
  injection E as E1 E2. destruct Hc as [Hc|Hr]; [contradiction|].
  destruct r; [congruence|discriminate].
Qed.

(** C10: [re.match] matches a prefix of the name. A name [s] that
    [parse_filename] accepts stays accepted with any text [t] appended,
    and the extension is then read after the last ['.'] of [s ++ t]. *)
Theorem parse_accepts_appended (dir : Path) (s t : string) (md : FileMetaData) :
  parse_filename (app dir [s]) = Ret (Some md) ->
  exists md', parse_filename (app dir [s ++ t]) = Ret (Some md') /\
    after_last_dot (s ++ t) = Some (extension md').
Proof.
  intros H.
  destruct (accepted_name _ _ _ H) as [Hn1 (c & r & -> & Hc)].
  pose proof (path_name_extend dir c r t Hc) as Hn2.
  assert (Hp : exists md', parse_filename (app dir [String c r ++ t]) = Ret (Some md')).
  { pose proof H as H0. apply parse_filename_ext in H0 as [_ [gs R]]. rewrite Hn1 in R.
    destruct (match_nodes alt5 (String c r ++ t)) as [caps'|] eqn:E5.
    - pose proof E5 as Ev. unfold alt5 in Ev. apply match_nodes_lits in Ev as (u & Eu & _).
      injection Eu as -> _.
      apply re_match_winner in R as (pre & a & post & caps & Hsplit & _ & Hm & _).
      assert (Hin : In a pattern)
        by (rewrite Hsplit; apply in_or_app; right; left; reflexivity).
      unfold pattern in Hin.
      destruct Hin as [<-|[<-|[<-|[<-|[<-|[<-|[<-|[<-|[<-|[]]]]]]]]]];
        try (vm_compute in Hm; discriminate Hm).
      rewrite <- Hn1 in Hm. rewrite <- Hn2 in E5.
      destruct (parse_vid _ _ Hm) as (y & mo & d & tag & ord & ext & _ & Et & Hl & E1).
      destruct (parse_vid _ _ E5) as (y' & mo' & d' & tag' & ord' & ext' & _ & Et' & _ & E2).
      rewrite Hn1 in Et, Hl, E1. rewrite Hn2 in Et', E2.
      assert (Etag : tag' = tag).
      { rewrite Et', Et, sdrop_app_le by lia. apply stake_app_le.
        rewrite sdrop_length. lia. }
      destruct (contains "WA" (String "V" r ++ t)) eqn:W2.
      + rewrite E2. eexists. reflexivity.
      + assert (W1 : contains "WA" (String "V" r) = false).
        { destruct (contains "WA" (String "V" r)) eqn:W1; [|reflexivity].
          apply (contains_app_l _ _ t) in W1. rewrite W2 in W1. discriminate. }
        rewrite W1, H in E1. rewrite E2, Etag.
        destruct (py_int tag); [|discriminate]. eexists. reflexivity.
    - apply re_match_winner in R as (pre & a & post & caps & Hsplit & _ & Hm & _).
      assert (Hin : In a pattern)
        by (rewrite Hsplit; apply in_or_app; right; left; reflexivity).
      destruct (match_nodes_app _ _ t _ Hm) as [caps' Hm'].
      destruct (re_match_some _ _ _ _ Hin Hm') as [gs' R'].
      apply parse_succeeds_off_vid; rewrite Hn2; eauto. }
  destruct Hp as [md' Hp]. exists md'. split; [exact Hp|].
  rewrite <- Hn2. apply parse_ext_last_dot. exact Hp.
Qed.

Lemma parse_accepts_appended_witness :
  parse_filename ["d"; "2021-01-01 01.01.01.jpg"]
    = Ret (Some (mkFileMetaData 2021 1 1 1 1 1 "jpg")) /\
  exists md', parse_filename ["d"; "2021-01-01 01.01.01.jpg.bak"] = Ret (Some md') /\
    after_last_dot "2021-01-01 01.01.01.jpg.bak" = Some (extension md').
Proof.
  split; [vm_compute; reflexivity|].
  exact (parse_accepts_appended ["d"] "2021-01-01 01.01.01.jpg" ".bak"
           (mkFileMetaData 2021 1 1 1 1 1 "jpg") ltac:(vm_compute; reflexivity)).
Defined.

(* ================================================================== *)
(** * Further properties of [rename_files], [main] and [my_debug_function] *)

Lemma get_unique_world (d : Path) (md : FileMetaData) (w : World) :
  get_unique_filepath d md w = (fst (get_unique_filepath d md w), w).
Proof.
  pose proof (probe_world (get_filename_format d md) range_1_100 w) as H.
  unfold get_unique_filepath. destruct (probe _ _ w) as [r w']. simpl in *. congruence.
Qed.

Lemma rename_then_fs (p q : Path) (m : M unit) (w : World) :
  (forall w1, fs (snd (m w1)) = fs w1) ->
  fs (snd ((rename p q ;;; m) w)) = fs (snd (rename p q w)).
Proof.
  intros Hm. unfold bind. destruct (rename p q w) as [[u|e] w2]; simpl; auto.
Qed.

Lemma print_fs (s : string) (w : World) : fs (snd (print s w)) = fs w.
Proof. reflexivity. Qed.

Lemma when_print_fs (b : bool) (s : string) (w : World) : fs (snd (when b (print s) w)) = fs w.
Proof. destruct b; reflexivity. Qed.

Ltac fin_rename E :=
  match type of E with
  | (rename ?p ?q ;;; ?m) ?w0 = _ =>
      let Hr := fresh "Hr" in
      assert (Hr : fs (snd ((rename p q ;;; m) w0)) = fs (snd (rename p q w0)))
        by (apply rename_then_fs; intros; apply when_print_fs);
      rewrite E in Hr; exact Hr
  end.

(** Of the steps of one iteration, only [filepath.rename(new_filepath)]
    changes the filesystem; it runs on a world with the same entries, for
    a regular file [p] that parses and the path [q] planned for it. *)
Lemma rename_one_shape (d : Path) (args : Args) (p : Path) (w : World) :
  fs (snd (rename_one d args p w)) = fs w \/
  exists md q w3,
    fst (is_file p w) = Ret true /\ parse_filename p = Ret (Some md) /\
    fst (get_unique_filepath d md w) = Ret q /\ fs w3 = fs w /\
    fs (snd (rename_one d args p w)) = fs (snd (rename p q w3)).
Proof.
  assert (Hfile : fst (is_file p w) = Ret (existsb (fun e => path_eqb (fst e) p &&
                            match snd e with RegularFile => true | Directory => false end)
                  (fs w))) by reflexivity.
  rewrite Hfile.
  destruct (rename_one d args p w) as [r w'] eqn:E. cbn [snd].
  unfold rename_one, bind at 1, is_file in E. cbv beta iota in E.
  destruct (existsb _ (fs w)) eqn:Hf; cbn [negb] in E; [|injection E as _ <-; left; reflexivity].
  unfold bind at 1, lift in E. destruct (parse_filename p) as [[md|]|e] eqn:Hp;
    cbv beta iota in E; [|injection E as _ <-; left; reflexivity..].
  unfold bind at 1 in E. rewrite (get_unique_world d md w) in E.
  destruct (fst (get_unique_filepath d md w)) as [q|e] eqn:Hq;
    [|injection E as _ <-; left; reflexivity].
  cbv beta iota in E.
  unfold bind at 1 in E.
  match type of E with context [when (verbose args) (print ?s) w] =>
    set (w1 := snd (when (verbose args) (print s) w)) in E;
    assert (H1 : fs w1 = fs w) by apply when_print_fs;
    replace (when (verbose args) (print s) w) with (@Ret unit tt, w1) in E
      by (unfold w1; destruct (verbose args); reflexivity)
  end.
  cbv beta iota in E.
  destruct (do_rename args); [|injection E as _ <-; left; exact H1].
  destruct (yes args).
  - right. exists md, q, w1. do 4 (split; [first [assumption | reflexivity]|]).
    unfold bind at 1, ret at 1 in E. cbv beta iota in E. cbn [when] in E. fin_rename E.
  - unfold bind at 1 2, input in E. destruct (stdin w1) as [|a rest]; cbv beta iota in E;
      [injection E as _ <-; left; exact H1|].
    destruct (lower a =? "y"); cbn [ret when] in E; [right|injection E as _ <-; left; exact H1].
    exists md, q, (mkWorld (fs w1) (app (out w1) [(Stdout, "Rename? " ++ path_str p ++ " -> "
                                ++ path_str q ++ " (y/n): ")]) rest).
    do 4 (split; [first [assumption | reflexivity]|]).
    fin_rename E.
Qed.
Lemma probe_free (base : Path) (indices : list Z) (w : World) (q : Path) :
  fst (probe base indices w) = Ret q -> in_world w q = false.
Proof.
  revert w. induction indices as [|i rest IH]; intros w H; [discriminate|].
  cbn [probe] in H. unfold bind, lift, path_exists in H.
  destruct (with_name base _) as [n|e]; [|discriminate].
  destruct (existsb _ (fs w)) eqn:E; cbn in H; [apply IH; exact H|].
  injection H as <-. exact E.
Qed.

Lemma path_eqb_spec (p q : Path) : path_eqb p q = true <-> p = q.
Proof. unfold path_eqb. destruct (list_eq_dec string_dec p q); split; congruence. Qed.

Lemma nodup_map_filter {A B} (g : A -> B) (f : A -> bool) (l : list A) :
  NoDup (map g l) -> NoDup (map g (filter f l)).
Proof.
  induction l as [|a l IH]; simpl; intros H; [constructor|].
  inversion H as [|x y Hn Hl]; subst.
  destruct (f a); simpl; [constructor|]; auto.
  intros Hin. apply Hn. apply in_map_iff in Hin as (b & Hb & Hbin).
  apply filter_In in Hbin as [Hbin _]. rewrite <- Hb. now apply in_map.
Qed.

Lemma filter_all {A} (f : A -> bool) (l : list A) :
  (forall x, In x l -> f x = true) -> filter f l = l.
Proof.
  induction l as [|a l IH]; simpl; intros H; [reflexivity|].
  rewrite H by auto. f_equal. auto.
Qed.

(** Dropping the one entry at [p] of a list without duplicate paths and
    without [q]. *)
Lemma filter_drop_one (l : list (Path * kind)) (p q : Path) :
  NoDup (map fst l) -> In p (map fst l) -> ~ In q (map fst l) ->
  S (length (filter (fun e => negb (path_eqb (fst e) p) && negb (path_eqb (fst e) q)) l))
  = length l.
Proof.
  induction l as [|e l IH]; simpl; intros Hnd Hp Hq; [contradiction|].
  inversion Hnd as [|x y Hn Hl]; subst.
  assert (Hq' : path_eqb (fst e) q = false).
  { destruct (path_eqb (fst e) q) eqn:E; [|reflexivity]. apply path_eqb_spec in E. tauto. }
  rewrite Hq'. destruct (path_eqb (fst e) p) eqn:Ep; simpl.
  - apply path_eqb_spec in Ep. subst p. f_equal. apply f_equal, filter_all.
    intros x Hx.
    destruct (path_eqb (fst x) (fst e)) eqn:E1; [apply path_eqb_spec in E1|].
    + exfalso. apply Hn. rewrite <- E1. now apply in_map.
    + destruct (path_eqb (fst x) q) eqn:E2; [apply path_eqb_spec in E2|reflexivity].
      exfalso. apply Hq. right. rewrite <- E2. now apply in_map.
  - destruct Hp as [Hp|Hp]; [apply path_eqb_spec in Hp; congruence|].
    f_equal. apply IH; auto.
Qed.

(** [p.rename(q)] for an existing [p] and a free [q] keeps the number of
    entries and their distinct paths. *)
Lemma rename_keeps_count (p q : Path) (w : World) :
  NoDup (map fst (fs w)) ->
  existsb (fun e => path_eqb (fst e) p) (fs w) = true ->
  in_world w q = false ->
  length (fs (snd (rename p q w))) = length (fs w) /\
  NoDup (map fst (fs (snd (rename p q w)))).
Proof.
  intros Hnd Hp Hq. unfold in_world in Hq.
  apply existsb_exists in Hp as (ep & Hep & Ep).
  assert (Hpin : In p (map fst (fs w))).
  { apply path_eqb_spec in Ep. subst p. now apply in_map. }
  assert (Hqn : ~ In q (map fst (fs w))).
  { intros Hin. apply in_map_iff in Hin as (eq & <- & Heq).
    assert (existsb (fun e => path_eqb (fst e) (fst eq)) (fs w) = true).
    { apply existsb_exists. exists eq. split; [exact Heq|]. now apply path_eqb_spec. }
    congruence. }
  unfold rename. destruct (find (fun e => path_eqb (fst e) p) (fs w)) as [[p' k]|] eqn:Ef.
  - cbn [snd fs]. rewrite length_app. simpl.
    rewrite Nat.add_1_r. split; [apply filter_drop_one; auto|].
    rewrite map_app. apply NoDup_app; [apply nodup_map_filter; exact Hnd|constructor; [intros []|constructor]|].
    intros x Hx [<-|[]]. apply in_map_iff in Hx as (e & He & Hin).
    apply filter_In in Hin as [_ Hf]. apply andb_prop in Hf as [_ Hf].
    rewrite He in Hf. rewrite (proj2 (path_eqb_spec _ _) eq_refl) in Hf. discriminate.
  - exfalso. apply find_none with (x := ep) in Ef; [|exact Hep]. congruence.
Qed.

Lemma rename_one_count (d : Path) (args : Args) (p : Path) (w : World) :
  NoDup (map fst (fs w)) ->
  length (fs (snd (rename_one d args p w))) = length (fs w) /\
  NoDup (map fst (fs (snd (rename_one d args p w)))).
Proof.
  intros Hnd.
  destruct (rename_one_shape d args p w) as [E|(md & q & w3 & Hf & _ & Hq & E3 & E)];
    rewrite E; [auto|].
  rewrite <- E3 in Hnd |- *.
  assert (Hfree : in_world w3 q = false).
  { unfold in_world. rewrite E3. change (in_world w q = false).
    apply (probe_free (get_filename_format d md) range_1_100 w). exact Hq. }
  assert (Hp : existsb (fun e => path_eqb (fst e) p) (fs w3) = true).
  { rewrite E3. unfold is_file in Hf. cbn [fst] in Hf. injection Hf as Hf.
    apply existsb_exists in Hf as (e & He & Hb). apply andb_prop in Hb as [Hb _].
    apply existsb_exists. eauto. }
  apply rename_keeps_count; assumption.
Qed.

Section LoopInvariant.
Variable R : World -> World -> Prop.
Hypothesis R_refl : forall w, R w w.
Hypothesis R_trans : forall a b c, R a b -> R b c -> R a c.
Variables (d : Path) (args : Args).
Hypothesis R_one : forall p w, R w (snd (rename_one d args p w)).

Lemma rename_loop_R (es : list Path) (w : World) : R w (snd (rename_loop d args es w)).
Proof.
  revert w. induction es as [|p es IH]; intros w; [apply R_refl|].
  cbn [rename_loop]. unfold bind.
  pose proof (R_one p w) as H1.
  destruct (rename_one d args p w) as [[u|e] w1]; cbn [snd] in *; [|exact H1].
  exact (R_trans _ _ _ H1 (IH w1)).
Qed.
End LoopInvariant.

(** [rename_files] runs the loop over the entries listed at the start and
    returns 0, or returns 1 after printing the exception on standard
    error. *)
Lemma rename_files_cases (d : Path) (args : Args) (w : World) :
  let es := map fst (filter (fun e => is_child d (fst e)) (fs w)) in
  rename_files d args w = (Ret 0%Z, snd (rename_loop d args es w)) \/
  exists e, rename_files d args w = (Ret 1%Z, emit Stderr (exc_str e) (snd (rename_loop d args es w))).
Proof.
  intros es. unfold rename_files, bind, iterdir. cbv beta iota. fold es.
  destruct (rename_loop d args es w) as [[u|e] w']; cbn [snd]; [left; reflexivity|right; eauto].
Qed.

Lemma rename_one_dry (d : Path) (args : Args) (p : Path) (w : World) :
  do_rename args = false ->
  fs (snd (rename_one d args p w)) = fs w /\ stdin (snd (rename_one d args p w)) = stdin w.
Proof.
  intros Hr. destruct (rename_one d args p w) as [r w'] eqn:E. simpl.
  unfold rename_one, bind at 1, is_file in E. cbv beta iota in E.
  destruct (existsb _ (fs w)); cbn [negb] in E; [|injection E as _ <-; auto].
  unfold bind at 1, lift in E.
  destruct (parse_filename p) as [[md|]|e]; cbv beta iota in E; [| injection E as _ <-; auto..].
  unfold bind at 1 in E. rewrite get_unique_world in E.
  destruct (fst (get_unique_filepath d md w)) as [q|e]; [|injection E as _ <-; auto].
  unfold bind at 1 in E.
  destruct (verbose args); cbn in E; rewrite Hr in E; cbn in E; injection E as _ <-; auto.
Qed.

Lemma rename_out (p q : Path) (w : World) :
  out (snd (rename p q w)) = out w.
Proof. unfold rename. destruct (find _ _) as [[]|]; reflexivity. Qed.

Lemma rename_one_quiet (d : Path) (args : Args) (p : Path) (w : World) :
  verbose args = false -> (do_rename args = false \/ yes args = true) ->
  out (snd (rename_one d args p w)) = out w.
Proof.
  intros Hv Hy. destruct (rename_one d args p w) as [r w'] eqn:E. simpl.
  unfold rename_one, bind at 1, is_file in E. cbv beta iota in E.
  destruct (existsb _ (fs w)); cbn [negb] in E; [|injection E as _ <-; auto].
  unfold bind at 1, lift in E.
  destruct (parse_filename p) as [[md|]|e]; cbv beta iota in E; [| injection E as _ <-; auto..].
  unfold bind at 1 in E. rewrite get_unique_world in E.
  destruct (fst (get_unique_filepath d md w)) as [q|e]; [|injection E as _ <-; auto].
  unfold bind at 1 in E. rewrite Hv in E. cbn [when ret] in E. cbv beta iota in E.
  destruct (do_rename args).
  - destruct Hy as [Hy|Hy]; [discriminate|]. rewrite Hy in E.
    unfold bind at 1, ret at 1 in E. cbv beta iota in E. cbn [when] in E.
    unfold bind in E. pose proof (rename_out p q w) as Ho.
    destruct (rename p q w) as [[u|e] w2]; cbn [when ret] in E; injection E as _ <-; exact Ho.
  - unfold bind at 1, ret at 1 in E. cbv beta iota in E. cbn [when ret] in E.
    injection E as _ <-. reflexivity.
Qed.

Lemma rename_files_dry (d : Path) (args : Args) (w : World) :
  do_rename args = false ->
  fs (snd (rename_files d args w)) = fs w /\ stdin (snd (rename_files d args w)) = stdin w.
Proof.
  intros Hr.
  assert (HL : forall es, fs (snd (rename_loop d args es w)) = fs w /\
                          stdin (snd (rename_loop d args es w)) = stdin w).
  { intros es. apply (rename_loop_R (fun a b => fs b = fs a /\ stdin b = stdin a)).
    - auto.
    - intros a b c [H1 H2] [H3 H4]. split; congruence.
    - intros p w'. now apply rename_one_dry. }
  destruct (rename_files_cases d args w) as [E|[e E]]; rewrite E; apply HL.
Qed.

(** X2: with [verbose] off and no prompt ([rename] off or [yes] on),
    [rename_files] writes nothing to standard output: the only output it
    may produce is one line on standard error. *)
Theorem rename_files_quiet (d : Path) (args : Args) (w : World) :
  verbose args = false -> (do_rename args = false \/ yes args = true) ->
  out (snd (rename_files d args w)) = out w \/
  exists msg, out (snd (rename_files d args w)) = app (out w) [(Stderr, msg)].
Proof.
  intros Hv Hy.
  assert (HL : forall es, out (snd (rename_loop d args es w)) = out w).
  { intros es. apply (rename_loop_R (fun a b => out b = out a)).
    - auto.
    - intros a b c H1 H2. congruence.
    - intros p w'. now apply rename_one_quiet. }
  destruct (rename_files_cases d args w) as [E|[e E]]; rewrite E; [left; apply HL|].
  right. exists (exc_str e). cbn [snd emit out]. rewrite HL. reflexivity.
Qed.


Lemma lower_y (a : string) : lower a = "y" <-> a = "y" \/ a = "Y".
Proof.
  destruct a as [|c [|c' r]].
  - simpl. split; [discriminate|intros [H|H]; discriminate].
  - destruct c as [[] [] [] [] [] [] [] []]; cbv; split;
      first [ intros H; discriminate H | intros [H|H]; discriminate H | auto | idtac ].
  - simpl. split; [intros H; discriminate H|intros [H|H]; discriminate H].
Qed.

Lemma lower_eqb_y (a : string) : String.eqb (lower a) "y" = String.eqb a "y" || String.eqb a "Y".
Proof.
  destruct (String.eqb_spec (lower a) "y") as [H|H]; apply lower_y in H || rewrite lower_y in H.
  - destruct H as [->| ->]; reflexivity.
  - destruct (String.eqb_spec a "y"), (String.eqb_spec a "Y"); tauto.
Qed.

Lemma rename_fs_only (p q : Path) (w1 w : World) :
  fs w1 = fs w -> fs (snd (rename p q w1)) = fs (snd (rename p q w)).
Proof. intros H. unfold rename. rewrite H. destruct (find _ _) as [[]|]; auto. Qed.

Lemma rename_then_stdin (p q : Path) (m : M unit) (w : World) :
  (forall w1, stdin (snd (m w1)) = stdin w1) ->
  stdin (snd ((rename p q ;;; m) w)) = stdin w.
Proof.
  intros Hm. unfold bind, rename. destruct (find _ _) as [[]|]; cbn [snd]; [rewrite Hm|]; reflexivity.
Qed.

(** X5: when asking for confirmation, a regular file that parses is renamed
    to its planned path exactly when the answer read is ["y"] or ["Y"]
    (["yes"] is a refusal); the answer is consumed either way. *)
Theorem rename_one_confirmation (d : Path) (args : Args) (p q : Path) (w : World)
    (md : FileMetaData) (a : string) (rest : list string) :
  do_rename args = true -> yes args = false ->
  fst (is_file p w) = Ret true -> parse_filename p = Ret (Some md) ->
  fst (get_unique_filepath d md w) = Ret q -> stdin w = a :: rest ->
  fs (snd (rename_one d args p w))
    = (if String.eqb a "y" || String.eqb a "Y" then fs (snd (rename p q w)) else fs w) /\
  stdin (snd (rename_one d args p w)) = rest.
Proof.
  intros Hr Hy Hf Hp Hq Hs.
  destruct (rename_one d args p w) as [r w'] eqn:E. cbn [snd].
  assert (Ei : is_file p w = (Ret true, w)) by (rewrite <- Hf; reflexivity).
  unfold rename_one, bind at 1 in E. rewrite Ei in E. cbv beta iota in E. cbn [negb] in E.
  unfold bind at 1, lift in E. rewrite Hp in E. cbv beta iota in E.
  unfold bind at 1 in E. rewrite get_unique_world, Hq in E. cbv beta iota in E.
  unfold bind at 1 in E.
  match type of E with context [when (verbose args) (print ?s) w] =>
    set (w1 := snd (when (verbose args) (print s) w)) in E;
    assert (H1 : fs w1 = fs w /\ stdin w1 = stdin w)
      by (unfold w1; destruct (verbose args); split; reflexivity);
    replace (when (verbose args) (print s) w) with (@Ret unit tt, w1) in E
      by (unfold w1; destruct (verbose args); reflexivity)
  end.
  destruct H1 as [F1 S1].
  cbv beta iota in E. rewrite Hr, Hy in E.
  unfold bind at 1 2, input in E. rewrite S1, Hs in E. cbv beta iota in E.
  unfold ret at 1 in E. cbv beta iota in E. rewrite lower_eqb_y in E.
  destruct (String.eqb a "y" || String.eqb a "Y"); cbn [when] in E.
  - match type of E with
    | (rename ?p ?q ;;; ?m) ?w2 = _ =>
        pose proof (rename_then_fs p q m w2 (fun w3 => when_print_fs _ _ w3)) as Hfs;
        pose proof (rename_then_stdin p q m w2
                      (fun w3 => ltac:(destruct (verbose args); reflexivity))) as Hst
    end.
    rewrite E in Hfs, Hst. cbn [snd] in Hfs, Hst. split.
    + rewrite Hfs. apply rename_fs_only. cbn [fs]. exact F1.
    + exact Hst.
  - unfold ret in E. injection E as _ <-. split; [exact F1|reflexivity].
Qed.

Lemma rename_one_eof (d : Path) (args : Args) (p : Path) (w : World) :
  do_rename args = true -> yes args = false -> stdin w = [] ->
  fs (snd (rename_one d args p w)) = fs w /\ stdin (snd (rename_one d args p w)) = [].
Proof.
  intros Hr Hy Hs. destruct (rename_one d args p w) as [r w'] eqn:E. cbn [snd].
  unfold rename_one, bind at 1, is_file in E. cbv beta iota in E.
  destruct (existsb _ (fs w)); cbn [negb] in E; [|injection E as _ <-; auto].
  unfold bind at 1, lift in E.
  destruct (parse_filename p) as [[md|]|e]; cbv beta iota in E; [| injection E as _ <-; auto..].
  unfold bind at 1 in E. rewrite get_unique_world in E.
  destruct (fst (get_unique_filepath d md w)) as [q|e]; [|injection E as _ <-; auto].
  unfold bind at 1 in E.
  match type of E with context [when (verbose args) (print ?s) w] =>
    set (w1 := snd (when (verbose args) (print s) w)) in E;
    assert (H1 : fs w1 = fs w /\ stdin w1 = stdin w)
      by (unfold w1; destruct (verbose args); split; reflexivity);
    replace (when (verbose args) (print s) w) with (@Ret unit tt, w1) in E
      by (unfold w1; destruct (verbose args); reflexivity)
  end.
  destruct H1 as [F1 S1].
  cbv beta iota in E. rewrite Hr, Hy in E.
  unfold bind at 1 2, input in E. rewrite S1, Hs in E. cbv beta iota in E.
  injection E as _ <-. cbn [emit fs stdin]. rewrite S1. auto.
Qed.


Lemma rename_one_skip (d : Path) (args : Args) (p : Path) (w : World) :
  fst (is_file p w) = Ret false \/ parse_filename p = Ret None ->
  rename_one d args p w = (Ret tt, w).
Proof.
  intros H. unfold rename_one, bind at 1.
  destruct H as [H|H].
  - assert (Ei : is_file p w = (Ret false, w)) by (rewrite <- H; reflexivity).
    rewrite Ei. reflexivity.
  - unfold is_file. cbv beta iota. destruct (existsb _ (fs w)); [|reflexivity].
    cbn [negb]. unfold bind, lift. rewrite H. reflexivity.
Qed.


Lemma probe_ret_in (base : Path) (indices : list Z) (w : World) (q : Path) :
  fst (probe base indices w) = Ret q ->
  exists i, In i indices /\
    with_name base (path_stem base ++ "_" ++ py_str_int i ++ path_suffix base) = Ret q.
Proof.
  revert w. induction indices as [|i rest IH]; intros w H; [discriminate|].
  cbn [probe] in H. unfold bind, lift, path_exists in H.
  destruct (with_name base _) as [n|e] eqn:Ew; [|discriminate].
  destruct (existsb _ (fs w)); cbn in H.
  - destruct (IH w H) as [j [Hj Hw]]. exists j. split; [right; exact Hj|exact Hw].
  - injection H as <-. exists i. split; [left; reflexivity|exact Ew].
Qed.

Lemma re_match_none (alts : list (list node)) (s : string) :
  (forall a, In a alts -> match_nodes a s = None) -> re_match alts s = None.
Proof.
  induction alts as [|a alts IH]; intros H; [reflexivity|].
  cbn [re_match]. rewrite (H a (or_introl eq_refl)), IH; [reflexivity|].
  intros b Hb. apply H. right. exact Hb.
Qed.

Lemma lits_head (c : ascii) (x : string) (ns : list node) (s : string) (caps : list string) :
  match_nodes (app (lits (String c x)) ns) s = Some caps -> exists r, s = String c r.
Proof.
  intros H. apply match_nodes_lits in H. destruct H as [r [Hr _]].
  exists (x ++ r). exact Hr.
Qed.

Lemma variant_name_no_match (md : FileMetaData) (i : Z) :
  contains " " (extension md) = false ->
  re_match pattern (canonical_stem md ++ "_" ++ py_str_int i ++ "." ++ extension md) = None.
Proof.
  intros Hsp.
  pose proof (canonical_stem_chars md) as Hst.
  pose proof (canonical_stem_nonempty md) as Hne.
  set (nn := canonical_stem md ++ "_" ++ py_str_int i ++ "." ++ extension md).
  assert (Hnsp : contains " " nn = false).
  { unfold nn. rewrite !contains_char_app. simpl.
    rewrite (all_chars_not_contains stem_char) by auto.
    rewrite (all_chars_not_contains num_char) by (auto using py_str_int_chars).
    rewrite Hsp. reflexivity. }
  assert (Hhd : exists c r, nn = String c r /\ stem_char c = true).
  { unfold nn. destruct (canonical_stem md) as [|c r]; [congruence|].
    exists c, (r ++ "_" ++ py_str_int i ++ "." ++ extension md). split; [reflexivity|].
    simpl in Hst. destruct (stem_char c); [reflexivity|discriminate]. }
  destruct Hhd as [c0 [r0 [Hn Hc0]]].
  apply re_match_none. intros a Ha.
  destruct (match_nodes a nn) as [caps|] eqn:E; [exfalso|reflexivity].
  cbn [pattern In] in Ha.
  repeat destruct Ha as [<-|Ha]; try contradiction;
  first
    [ apply (match_nodes_lit_in " ") in E;
        [ congruence
        | solve [cbv [alt1 alt9 lit gd gwplus gdplus]; cbn; repeat (first [left; reflexivity | right])] ]
    | cbv [alt2 alt3 alt4 alt5 alt6 alt7 alt8] in E; apply lits_head in E;
        destruct E as [r E]; rewrite Hn in E; injection E as -> _; discriminate Hc0 ].
Qed.

Lemma spec_variant_name (d : Path) (md : FileMetaData) (i : Z) :
  ext_ok (extension md) = true ->
  path_name (spec_variant d md i)
  = canonical_stem md ++ "_" ++ py_str_int i ++ "." ++ extension md.
Proof.
  intros Hok. apply ext_ok_spec in Hok as (Hne & Hdot & Hsl).
  pose proof (canonical_stem_chars md) as Hst.
  pose proof (canonical_stem_nonempty md) as Hstne.
  set (stem := canonical_stem md) in *. set (ext := extension md) in *.
  assert (Hstsl : contains "/" stem = false) by (apply (all_chars_not_contains stem_char); auto).
  pose proof (py_str_int_chars i) as Hi.
  assert (Hisl : contains "/" (py_str_int i) = false)
    by (apply (all_chars_not_contains num_char); auto).
  set (nn := stem ++ "_" ++ py_str_int i ++ "." ++ ext).
  assert (Hnnsl : contains "/" nn = false).
  { unfold nn. rewrite !contains_char_app. simpl. rewrite Hstsl, Hisl, Hsl. reflexivity. }
  assert (Hnnne : nn <> "").
  { unfold nn. intros H. apply (f_equal String.length) in H. rewrite length_append_s in H.
    simpl in H. lia. }
  assert (Hnndot : nn <> ".").
  { unfold nn. intros H. apply (f_equal String.length) in H. rewrite length_append_s in H.
    simpl in H. destruct stem; [congruence|]. simpl in H. lia. }
  unfold spec_variant. fold stem ext. fold nn.
  rewrite path_div_simple by assumption. apply path_name_snoc; [exact Hnnne|].
  intros H. rewrite H in Hnnsl. discriminate.
Qed.

(** X8: a path returned by [get_unique_filepath] is not accepted by
    [parse_filename] ([None]) when the extension is a plain one without a
    space: a second run leaves renamed files alone. *)
Theorem unique_filepath_not_reparsed (d : Path) (md : FileMetaData) (w : World) (q : Path) :
  ext_ok (extension md) = true -> contains " " (extension md) = false ->
  fst (get_unique_filepath d md w) = Ret q -> parse_filename q = Ret None.
Proof.
  intros Hok Hsp Hq. unfold get_unique_filepath in Hq.
  destruct (probe_ret_in _ _ _ _ Hq) as [i [_ Hw]].
  rewrite (loop_variant d md i Hok) in Hw. injection Hw as <-.
  unfold parse_filename. rewrite (spec_variant_name d md i Hok), variant_name_no_match by exact Hsp.
  reflexivity.
Qed.

(** X9: [parse_filename] raises exactly on a name matched by the VID
    alternative, without ["WA"], whose two tag characters are not digits;
    the exception is the one of [int()] on those two characters. *)
Theorem parse_filename_raises_iff (p : Path) (e : exc) :
  parse_filename p = Raise e <->
  (exists caps, match_nodes alt5 (path_name p) = Some caps) /\
  contains "WA" (path_name p) = false /\
  py_int (stake 2 (sdrop 13 (path_name p))) = Raise e.
Proof.
  split.
  - intros H. destruct (match_nodes alt5 (path_name p)) as [caps|] eqn:H5.
    + destruct (parse_vid p caps H5) as (y & mo & d & tag & ord & ext & _ & Et & _ & Hp).
      rewrite Hp in H. rewrite <- Et.
      destruct (contains "WA" (path_name p)); [discriminate|].
      destruct (py_int tag) as [h|e']; cbn [obind] in H; [discriminate|].
      split; [eauto|split; congruence].
    + exfalso. destruct (re_match pattern (path_name p)) as [gs|] eqn:R.
      * destruct (parse_succeeds_off_vid p H5 (ex_intro _ gs R)) as [md Hmd]. congruence.
      * unfold parse_filename in H. cbv zeta in H. rewrite R in H. discriminate.
  - intros ([caps H5] & Hwa & Hi).
    destruct (parse_vid p caps H5) as (y & mo & d & tag & ord & ext & _ & Et & _ & Hp).
    rewrite <- Et in Hi. rewrite Hp, Hwa, Hi. reflexivity.
Qed.

Lemma run_exiftool_returns (exiftool_path : option string) (call : list string -> M Z)
    (d : Path) (w : World) :
  (forall l w0, exists r w1, call l w0 = (Ret r, w1)) ->
  exists r w1, run_exiftool exiftool_path call d w = (Ret r, w1).
Proof.
  intros Hc. unfold run_exiftool.
  destruct exiftool_path as [[|c s]|]; try (do 2 eexists; reflexivity).
  unfold bind at 1. destruct (Hc [String c s; "-filename<DateTimeOriginal"; "-d";
                                 "%Y-%m-%d_%H-%M-%S.%%e"; "-r"; path_name d; "."] w)
    as (r & w1 & ->).
  destruct (negb (r =? 0)%Z); do 2 eexists; reflexivity.
Qed.

Lemma rename_files_status (d : Path) (args : Args) (w : World) :
  fst (rename_files d args w) = Ret 0%Z \/ fst (rename_files d args w) = Ret 1%Z.
Proof.
  destruct (rename_files_cases d args w) as [E|[e E]]; rewrite E; [left|right]; reflexivity.
Qed.



(** X1: with [rename] off (a dry run), [rename_files] changes no file and
    reads no input. *)
Theorem rename_files_dry_run (d : Path) (args : Args) (w : World) :
  do_rename args = false ->
  fs (snd (rename_files d args w)) = fs w /\ stdin (snd (rename_files d args w)) = stdin w.
Proof. apply rename_files_dry. Qed.

(** X3: [get_unique_filepath] only returns a path that does not exist. *)
Theorem get_unique_filepath_fresh (d : Path) (md : FileMetaData) (w : World) (q : Path) :
  fst (get_unique_filepath d md w) = Ret q -> path_exists q w = (Ret false, w).
Proof.
  intros Hq. unfold get_unique_filepath in Hq. apply probe_free in Hq.
  unfold path_exists. unfold in_world in Hq. rewrite Hq. reflexivity.
Qed.

(** X12: [main] without [-r] and without [-e] changes no file and reads no
    input, whether or not the argument is a directory. *)
Theorem main_dry_run (exiftool_path : option string) (call : list string -> M Z)
    (args : CliArgs) (w : World) :
  cli_rename args = false -> cli_exiftool args = false ->
  fs (snd (main exiftool_path call args w)) = fs w /\
  stdin (snd (main exiftool_path call args w)) = stdin w.
Proof.
  intros Hr He. remember (main exiftool_path call args w) as res eqn:E.
  unfold main in E. rewrite He in E. unfold bind at 1, ret at 1 in E. cbv beta iota zeta in E.
  unfold bind at 1, is_dir in E. cbv beta iota in E.
  destruct (existsb _ (fs w)); cbn [negb] in E; subst res.
  - apply rename_files_dry. cbn [do_rename]. exact Hr.
  - split; reflexivity.
Qed.

Lemma to_from_json (j : json) : to_json (from_json j) = j.
Proof.
  revert j. fix to_from_json 1. intros j.
  destruct j as [| | | |l|kvs]; cbn [from_json to_json]; try reflexivity.
  - f_equal. rewrite map_map. induction l as [|x l IH]; [reflexivity|].
    cbn [map]. rewrite (to_from_json x), IH. reflexivity.
  - f_equal. rewrite map_map. induction kvs as [|[k x] kvs IH]; [reflexivity|].
    cbn [map]. rewrite (to_from_json x), IH. reflexivity.
Qed.

Lemma finally_block_append (log_entry : pyval) (s : LogFile) (js : list json) :
  prior_entries s = Some js ->
  finally_block log_entry s = (None, JsonLog (JArr (app js [to_json log_entry]))).
Proof.
  intros H. unfold finally_block.
  destruct s as [| |[| | | |l|kvs]|err]; cbn in H; try discriminate; injection H as <-.
  - reflexivity.
  - reflexivity.
  - cbn [finally_block log_exists log_nonempty andb json_load from_json py_append to_json].
    rewrite map_app, map_map. cbn [map].
    replace (map (fun x => to_json (from_json x)) l) with l; [reflexivity|].
    induction l as [|x l IH]; [reflexivity|]. cbn [map]. rewrite to_from_json, <- IH. reflexivity.
Qed.

Lemma finally_block_fails (log_entry : pyval) (s : LogFile) :
  prior_entries s = None ->
  exists cls msg, finally_block log_entry s = (Some (ExceptionE cls msg), s) /\
    (cls = "AttributeError" \/ cls = "JSONDecodeError").
Proof.
  intros H. unfold finally_block.
  destruct s as [| |[| | | |l|kvs]|err]; cbn in H; try discriminate; cbn;
    do 2 eexists; split; try reflexivity; auto.
Qed.




(** ** Witnesses of the properties *)

Lemma rename_files_dry_run_witness :
  fs (snd (rename_files ["d"] (mkArgs true false false) demo_world)) = fs demo_world /\
  stdin (snd (rename_files ["d"] (mkArgs true false false) demo_world)) = ["yes"].
Proof. apply (rename_files_dry_run ["d"] (mkArgs true false false) demo_world eq_refl). Defined.

Lemma rename_files_quiet_witness :
  out (snd (rename_files ["d"] batch_args demo_world)) = [] \/
  exists msg, out (snd (rename_files ["d"] batch_args demo_world)) = app [] [(Stderr, msg)].
Proof. apply (rename_files_quiet ["d"] batch_args demo_world eq_refl (or_intror eq_refl)). Defined.

Lemma get_unique_filepath_fresh_witness :
  path_exists (spec_variant batch_dir scenario_a 4) (occupied_world 3)
  = (Ret false, occupied_world 3).
Proof.
  apply (get_unique_filepath_fresh batch_dir scenario_a (occupied_world 3)).
  vm_compute. reflexivity.
Defined.


Lemma rename_one_confirmation_witness :
  fs (snd (rename_one ["d"] confirm_args batch_first demo_world)) = fs demo_world /\
  stdin (snd (rename_one ["d"] confirm_args batch_first demo_world)) = [].
Proof.
  apply (rename_one_confirmation ["d"] confirm_args batch_first ["d"; "2021-01-01_01-01-01_1.jpg"]
           demo_world scenario_a "yes" []); vm_compute; reflexivity.
Defined.



Lemma unique_filepath_not_reparsed_witness :
  parse_filename ["d"; "2021-01-01_01-01-01_1.jpg"] = Ret None.
Proof.
  apply (unique_filepath_not_reparsed ["d"] scenario_a empty_world); vm_compute; reflexivity.
Defined.

Lemma parse_filename_raises_iff_witness :
  contains "WA" "VID_20210101_AB1234.mp4" = false /\
  py_int "AB" = Raise (ValueError "invalid literal for int() with base 10: 'AB'").
Proof.
  destruct (proj1 (parse_filename_raises_iff ["d"; "VID_20210101_AB1234.mp4"]
                     (ValueError "invalid literal for int() with base 10: 'AB'"))
                  ltac:(vm_compute; reflexivity)) as (_ & H1 & H2).
  split; [exact H1|exact H2].
Defined.



Lemma main_dry_run_witness :
  fs (snd (main None (fun _ w => (Ret 0%Z, w)) (mkCliArgs "d" false true true false) demo_world))
  = fs demo_world /\
  stdin (snd (main None (fun _ w => (Ret 0%Z, w)) (mkCliArgs "d" false true true false) demo_world))
  = ["yes"].
Proof. apply main_dry_run; reflexivity. Defined.



